(** * Example-record generation for the device data model

    A shallow embedding of [src/device-data/basal.js] and
    [src/device-data/bloodKetone.js]: the schema fragments, their
    composition with lodash's [_.assign], and the [generate] entry points
    with their post-processing.

    JavaScript data is kept as it is in the program: every schema, fragment,
    descriptor and generated record is a JavaScript value; numbers are IEEE
    754 binary64 values; objects are association lists in insertion order.
    Randomness (the [chance] instances), the console and process exit are
    explicit in a [world] that the generators thread through. *)

From Stdlib Require Import ZArith List String Ascii Bool Lia DecimalString.
From Stdlib Require Import Floats.SpecFloat.
Import ListNotations.

Local Open Scope string_scope.
Local Open Scope Z_scope.

(* ================================================================== *)
(** ** JavaScript numbers *)

Module Number.

(** A JavaScript Number is an IEEE 754 binary64 value. *)
Definition number := spec_float.

Definition prec : Z := 53.
Definition emax : Z := 1024.

Definition NaN : number := S754_nan.
Definition zero : number := S754_zero false.

(** The Number denoted by an integer literal or integer result. *)
Definition of_Z (z : Z) : number := binary_normalize prec emax z 0 false.

Definition mul : number -> number -> number := SFmul prec emax.
Definition div : number -> number -> number := SFdiv prec emax.

(** JavaScript's [===] on numbers: [+0] equals [-0], [NaN] equals nothing. *)
Definition eqb : number -> number -> bool := SFeqb.
Definition leb : number -> number -> bool := SFleb.

Definition is_nan (x : number) : bool :=
  match x with S754_nan => true | _ => false end.

(** Neither [NaN] nor an infinity. *)
Definition is_finite (x : number) : bool :=
  match x with
  | S754_zero _ | S754_finite _ _ _ => true
  | _ => false
  end.

Definition is_zero (x : number) : bool :=
  match x with S754_zero _ => true | _ => false end.

(** The Number denoted by the decimal literal [m / 10^digits]
    (correctly rounded, as the quotient of two exact integers is). *)
Definition decimal (m : Z) (digits : nat) : number :=
  div (of_Z m) (of_Z (10 ^ Z.of_nat digits)).

(** The integer [floor (x + 1/2)] for the finite value [(-1)^s * m * 2^e]. *)
Definition round_Z (s : bool) (m : positive) (e : Z) : Z :=
  let v := cond_Zopp s (Zpos m) in
  if 0 <=? e then v * 2 ^ e
  else (2 * v + 2 ^ (- e)) / 2 ^ (1 - e).

(** [Math.round]: the nearest integer, ties towards +infinity; zeros,
    infinities and [NaN] are returned as they are, and a negative argument
    that rounds to zero gives [-0]. *)
Definition round (x : number) : number :=
  match x with
  | S754_finite s m e => binary_normalize prec emax (round_Z s m e) 0 s
  | _ => x
  end.

End Number.

Export Number(number).

(* ================================================================== *)
(** ** The world: random sources, console, process *)

Module World.

(** The raw draws of one [Chance] instance, in the order it hands them out. *)
Definition stream := nat -> N.

Definition next (s : stream) : N * stream := (s 0%nat, fun i => s (S i)).

(** Every module does [new Chance()], so each has a random source of its
    own; [stderr] is what [console.error] has printed so far. *)
Record world := {
  chance_basal : stream;
  chance_bloodKetone : stream;
  chance_common : stream;
  stderr : list string
}.

Definition with_chance_basal (s : stream) (w : world) : world :=
  {| chance_basal := s;
     chance_bloodKetone := chance_bloodKetone w;
     chance_common := chance_common w;
     stderr := stderr w |}.

Definition with_chance_bloodKetone (s : stream) (w : world) : world :=
  {| chance_basal := chance_basal w;
     chance_bloodKetone := s;
     chance_common := chance_common w;
     stderr := stderr w |}.

Definition with_chance_common (s : stream) (w : world) : world :=
  {| chance_basal := chance_basal w;
     chance_bloodKetone := chance_bloodKetone w;
     chance_common := s;
     stderr := stderr w |}.

(** [console.error(line)]. *)
Definition console_error (line : string) (w : world) : world :=
  {| chance_basal := chance_basal w;
     chance_bloodKetone := chance_bloodKetone w;
     chance_common := chance_common w;
     stderr := stderr w ++ [line] |}.

(** How a call ends: it returns to its caller, or the process has exited
    ([process.exit()] without an argument exits with code 0). *)
Inductive outcome (A : Type) : Type :=
| Returned (a : A)
| Exited (code : Z).

Arguments Returned {A} a.
Arguments Exited {A} code.

End World.

Export World(world, outcome, Returned, Exited).

(* ================================================================== *)
(** ** The chance library *)

Module Chance.
Import World.

(** [chance.integer({min, max})]: an integer of [min..max], decided by the
    next raw draw.  Called here with [min <= max] only. *)
Definition integer (min max : Z) (s : stream) : Z * stream :=
  let (d, s') := next s in
  (min + Z.of_N d mod (max - min + 1), s').

(** [chance.floating({min, max, fixed})] picks
    [num = integer({min: min * 10^fixed, max: max * 10^fixed})] and returns
    [parseFloat((num / 10^fixed).toFixed(fixed))]; printing the quotient
    with [fixed] decimals and reading it back gives the quotient again. *)
Definition floating (min max : Z) (fixed : nat) (s : stream) : number * stream :=
  let scale := 10 ^ Z.of_nat fixed in
  let (num, s') := integer (min * scale) (max * scale) s in
  (Number.div (Number.of_Z num) (Number.of_Z scale), s').

(** [fixed] is 4 when the caller gives none. *)
Definition default_fixed : nat := 4.

End Chance.

(* ================================================================== *)
(** ** JavaScript values and objects *)

Module JS.
Import World.

#[local] Unset Elimination Schemes.

Inductive value : Type :=
| VUndefined
| VNull
| VBool (b : bool)
| VNum (x : number)
| VStr (s : string)
| VFun (name : string) (call : world -> value * world)
    (** a zero-argument function: its identity and what a call does *)
| VArr (elems : list value)
| VObj (props : list (string * value)).

#[local] Set Elimination Schemes.

(** An object: its own enumerable properties, in insertion order. *)
Definition object := list (string * value).

Definition keys (o : object) : list string := map fst o.

Fixpoint get (k : string) (o : object) : option value :=
  match o with
  | [] => None
  | (k', v) :: rest => if String.eqb k' k then Some v else get k rest
  end.

(** [o.k] (or [o[k]]): [undefined] when there is no such property. *)
Definition prop (o : object) (k : string) : value :=
  match get k o with Some v => v | None => VUndefined end.

(** [k in o]. *)
Definition has (k : string) (o : object) : bool :=
  match get k o with Some _ => true | None => false end.

(** [o.k = v]: an existing property keeps its place, a new one goes last. *)
Fixpoint set (k : string) (v : value) (o : object) : object :=
  match o with
  | [] => [(k, v)]
  | (k', v') :: rest =>
      if String.eqb k' k then (k, v) :: rest else (k', v') :: set k v rest
  end.

(** [delete o.k]. *)
Fixpoint delete (k : string) (o : object) : object :=
  match o with
  | [] => []
  | (k', v') :: rest =>
      if String.eqb k' k then delete k rest else (k', v') :: delete k rest
  end.

(** Property access on any value that the program reads properties of. *)
Definition member (v : value) (k : string) : value :=
  match v with
  | VObj o => prop o k
  | _ => VUndefined
  end.

(** [typeof v === 'function']. *)
Definition is_function (v : value) : bool :=
  match v with VFun _ _ => true | _ => false end.

(** Truthiness, as the condition of an [if] takes it. *)
Definition truthy (v : value) : bool :=
  match v with
  | VUndefined | VNull => false
  | VBool b => b
  | VNum x => negb (Number.is_zero x || Number.is_nan x)
  | VStr s => negb (String.eqb s "")
  | VFun _ _ | VArr _ | VObj _ => true
  end.

(** [v != null]: false for [null] and [undefined] only. *)
Definition not_nullish (v : value) : bool :=
  match v with
  | VUndefined | VNull => false
  | _ => true
  end.

(** Objects never hold a property twice, at any depth. *)
Fixpoint nodup_keys (l : list string) : bool :=
  match l with
  | [] => true
  | k :: rest => negb (existsb (String.eqb k) rest) && nodup_keys rest
  end.

Fixpoint wf (v : value) : bool :=
  match v with
  | VArr l => forallb wf l
  | VObj o => nodup_keys (map fst o) && forallb (fun kv => wf (snd kv)) o
  | _ => true
  end.

Section Coercions.
(** What the runtime's [ToString] gives for a value that is not a
    string, and what number its [StringToNumber] reads off a string. *)
Variable ToString_other : value -> string.
Variable StringToNumber : string -> number.

Definition ToString (v : value) : string :=
  match v with
  | VStr s => s
  | _ => ToString_other v
  end.

Definition ToNumber (v : value) : number :=
  match v with
  | VUndefined => Number.NaN
  | VNull => Number.zero
  | VBool b => if b then Number.of_Z 1 else Number.zero
  | VNum x => x
  | VStr s => StringToNumber s
  | VFun _ _ | VArr _ | VObj _ => StringToNumber (ToString v)
  end.

(** [a * b]. *)
Definition times (a b : value) : value :=
  VNum (Number.mul (ToNumber a) (ToNumber b)).

End Coercions.

End JS.

Export JS(value, VUndefined, VNull, VBool, VNum, VStr, VFun, VArr, VObj, object).

(* ================================================================== *)
(** ** The lodash functions the modules use *)

Module Lodash.
Import JS.

(** The property name of an array index. *)
Definition index_key (n : nat) : string :=
  NilEmpty.string_of_uint (Nat.to_uint n).

Fixpoint indexed (i : nat) (l : list value) : object :=
  match l with
  | [] => []
  | v :: rest => (index_key i, v) :: indexed (S i) rest
  end.

Fixpoint chars (s : string) : list value :=
  match s with
  | EmptyString => []
  | String c rest => VStr (String c EmptyString) :: chars rest
  end.

(** The own enumerable properties [_.assign] copies from a source:
    none for [null], [undefined], numbers, booleans and functions. *)
Definition own_props (v : value) : object :=
  match v with
  | VObj o => o
  | VArr l => indexed 0 l
  | VStr s => indexed 0 (chars s)
  | _ => []
  end.

(** [_.assign(target, ...sources)], as the object [target] ends up:
    sources from left to right, each property assigned in its order. *)
Definition assign (target : object) (sources : list value) : object :=
  fold_left
    (fun t s => fold_left (fun t' kv => set (fst kv) (snd kv) t') (own_props s) t)
    sources target.

(** [_.pick(o, paths)] for plain property names: a new object with the
    listed properties that [o] has, in the order of [paths]. *)
Definition pick (o : object) (paths : list string) : object :=
  fold_left
    (fun r k => match get k o with Some v => set k v r | None => r end)
    paths [].

(** [_.values(o)]. *)
Definition values (o : object) : list value := map snd o.

(** SameValueZero.  Functions are the same when they are the same
    function; an object or array is the same as itself only, and no
    collection searched in this program holds one. *)
Definition sameValueZero (a b : value) : bool :=
  match a, b with
  | VUndefined, VUndefined => true
  | VNull, VNull => true
  | VBool x, VBool y => Bool.eqb x y
  | VNum x, VNum y => Number.eqb x y || (Number.is_nan x && Number.is_nan y)
  | VStr x, VStr y => String.eqb x y
  | VFun f _, VFun g _ => String.eqb f g
  | _, _ => false
  end.

(** [_.includes(collection, v)] on an array. *)
Definition includes (collection : list value) (v : value) : bool :=
  existsb (fun x => sameValueZero x v) collection.

(** [_.isEqual(a, b)]: the structural (deep) comparison.  Arrays are
    compared element by element, objects property by property whatever
    the order, everything else by SameValueZero. *)
Fixpoint isEqual (a b : value) : bool :=
  match a, b with
  | VArr l1, VArr l2 =>
      (fix elems (l1 l2 : list value) : bool :=
         match l1, l2 with
         | [], [] => true
         | x :: r1, y :: r2 => isEqual x y && elems r1 r2
         | _, _ => false
         end) l1 l2
  | VObj o1, VObj o2 =>
      Nat.eqb (List.length o1) (List.length o2)
      && forallb
           (fun kv =>
              let '(k, v) := kv in
              match get k o2 with
              | Some v' => isEqual v v'
              | None => false
              end) o1
  | _, _ => sameValueZero a b
  end.

End Lodash.

(* ================================================================== *)
(** ** The moment library *)

Module Moment.

(** A moment: the instant it holds, in milliseconds since the epoch, or
    [None] for an invalid date. *)
Definition moment := option Z.

Definition MS_PER_MINUTE : Z := 60000.
Definition MS_PER_HOUR : Z := 3600000.

Section Zone.
(** The local zone's offset from UTC at an instant, in minutes. *)
Variable utcOffset : Z -> Z.

(** [m.startOf('hour')] on a local-mode moment. *)
Definition startOf_hour (m : moment) : moment :=
  match m with
  | Some t => Some (t - (t + utcOffset t * MS_PER_MINUTE) mod MS_PER_HOUR)
  | None => None
  end.
End Zone.

End Moment.

(* ================================================================== *)
(** ** common.js *)

Module Common.
Import World JS.

(** Modelled from the spec: the stable field-name set of the common-fields
    collaborator of [src/device-data/common.js], which is not among the
    sources: the envelope every record type carries (time, device and
    upload identifiers, schema and version metadata), under the names the
    generated documentation lists as common fields. *)
Inductive envelope_field : Type :=
| F_clockDriftOffset | F_conversionOffset | F_deviceId | F_deviceTime
| F_guid | F_time | F_timezoneOffset | F_uploadId
| F_active | F_groupId | F_schemaVersion | F_version
| F_createdTime | F_id.

(** Modelled from the spec: the property name of an envelope field. *)
Definition field_name (f : envelope_field) : string :=
  match f with
  | F_clockDriftOffset => "clockDriftOffset"
  | F_conversionOffset => "conversionOffset"
  | F_deviceId => "deviceId"
  | F_deviceTime => "deviceTime"
  | F_guid => "guid"
  | F_time => "time"
  | F_timezoneOffset => "timezoneOffset"
  | F_uploadId => "uploadId"
  | F_active => "_active"
  | F_groupId => "_groupId"
  | F_schemaVersion => "_schemaVersion"
  | F_version => "_version"
  | F_createdTime => "createdTime"
  | F_id => "id"
  end.

(** Modelled from the spec: the envelope fields as an object. *)
Definition envelope_object (env : list (envelope_field * value)) : object :=
  Lodash.assign [] [VObj (map (fun fv => (field_name (fst fv), snd fv)) env)].

(** Modelled from the spec: resolving one field descriptor's example value
    inside [common.generate]; a zero-argument generator is invoked, anything
    else is used as it is. *)
Definition resolve (descriptor : value) (w : world) : value * world :=
  match member descriptor "instance" with
  | VFun _ call => call w
  | v => (v, w)
  end.

(** Modelled from the spec: the fields of a schema resolved one after the
    other, in the order of the schema. *)
Fixpoint resolve_all (schema : object) (w : world) : object * world :=
  match schema with
  | [] => ([], w)
  | (k, d) :: rest =>
      let (v, w1) := resolve d w in
      let (o, w2) := resolve_all rest w1 in
      ((k, v) :: o, w2)
  end.

Section Generate.
(** The common-fields collaborator: the envelope fields for a
    timestamp and an output format, with their values. *)
Variable envelope : value -> value -> world -> list (envelope_field * value) * world.

(** Modelled from the spec: [common.generate(schema, utc, format)] of
    [src/device-data/common.js], which is not among the sources.  For
    each field of the effective schema the example value is resolved
    (a zero-argument generator is invoked, a literal is used as it is);
    then the universal record-envelope fields are applied. *)
Definition generate (schema : object) (utc format : value) (w : world)
  : object * world :=
  let (bare, w1) := resolve_all schema w in
  let (env, w2) := envelope utc format w1 in
  (Lodash.assign bare [VObj (envelope_object env)], w2).
End Generate.

(** Modelled from the spec: [common.duration] of
    [src/device-data/common.js], which is not among the sources; a
    generated [duration] is an integer number of milliseconds in
    [0, 86400000]. *)
Definition duration (w : world) : value * world :=
  let (n, s) := Chance.integer 0 86400000 (chance_common w) in
  (VNum (Number.of_Z n), with_chance_common s w).

End Common.

(* ================================================================== *)
(** ** basal.js *)

Module Basal.
Import World JS.

Definition DELIVERY_TYPES : object :=
  [("scheduled", VStr "scheduled");
   ("temp", VStr "temp");
   ("suspend", VStr "suspend")].

Definition TYPE : string := "basal".

(** [percentInstance]: a float rounded to the nearest 0.05. *)
Definition percentInstance (w : world) : value * world :=
  let (x, s) := Chance.floating 0 1 Chance.default_fixed (chance_basal w) in
  (VNum (Number.div (Number.round (Number.mul x (Number.of_Z 20)))
                    (Number.of_Z 20)),
   with_chance_basal s w).

(** Object literals of the schemas.  The [description] and [changelog]
    entries, the [numericalType] entries taken from common.numericalTypes,
    the [nestedPropertiesIntro] texts and the one [range] built by
    common.propTypes.oneOfStringOptions are documentation put together from
    constants of common.js; only the documentation generator reads them, and
    they are left out here. *)
Definition num (z : Z) : value := VNum (Number.of_Z z).

Definition required (jellyfish platform : value) : string * value :=
  ("required", VObj [("jellyfish", jellyfish); ("platform", platform)]).

Definition range (min max : value) : string * value :=
  ("range", VObj [("min", min); ("max", max)]).

Definition descriptor (instance : value) (summary : object) : value :=
  VObj [("instance", instance); ("summary", VObj summary)].

Definition percentSummary : object :=
  [required (VBool false) (VBool false);
   ("numericalType",
    VStr "Floating point value representing a percentage, where 1.0 represents 100%.");
   range (VStr "0.0") (VStr "10.0")].

Definition previous : string * value :=
  ("previous", descriptor (VObj []) [required (VBool false) VNull]).

Definition scheduleName_summary : object :=
  [required (VBool false) (VBool false)].

Section Schemas.
(** Constants of common.js that the schemas refer to. *)
Variable common_duration : value.
Variable common_basalRateValue : value.
Variable common_basalRateSummary : value.
Variable common_SCHEDULE_NAMES : value.

Definition base : object :=
  [("type", descriptor (VStr TYPE) [required (VBool true) (VBool true)])].

Definition scheduled : object :=
  [("deliveryType",
    descriptor (prop DELIVERY_TYPES "scheduled")
      [required (VBool true) (VBool true)]);
   ("duration",
    descriptor common_duration
      [required (VBool false) (VBool true);
       range (num 0) (num 432000000)]);
   ("expectedDuration",
    descriptor (num 0)
      [required (VBool false) (VBool false);
       range (VStr ">= `duration`") (num 432000000)]);
   ("rate",
    VObj [("instance", common_basalRateValue);
          ("summary", common_basalRateSummary)]);
   previous;
   ("scheduleName",
    descriptor common_SCHEDULE_NAMES scheduleName_summary)].

Definition temp : object :=
  [("deliveryType",
    descriptor (prop DELIVERY_TYPES "temp")
      [required (VBool true) (VBool true)]);
   ("duration",
    descriptor common_duration
      [required (VBool true) (VBool true);
       range (num 0) (num 86400000)]);
   ("expectedDuration",
    descriptor (num 0)
      [required (VBool false) (VBool false);
       range (VStr ">= `duration`") (num 86400000)]);
   ("percent", descriptor (VFun "percentInstance" percentInstance) percentSummary);
   previous;
   ("rate",
    descriptor (num 0)
      [required (VBool false) (VBool true);
       range (VStr "0.0") (VStr "20.0")]);
   ("suppressed",
    descriptor (VObj [])
      [required (VBool false) (VBool false);
       ("nested", VBool true);
       ("keys",
        VObj
          [("type",
            descriptor (VStr TYPE) [required (VBool false) (VBool true)]);
           ("deliveryType",
            descriptor (prop DELIVERY_TYPES "scheduled")
              [required (VBool false) (VBool true)]);
           ("rate",
            VObj [("instance", common_basalRateValue);
                  ("summary", common_basalRateSummary)]);
           ("scheduleName",
            descriptor common_SCHEDULE_NAMES scheduleName_summary)])])].

Definition suspend : object :=
  [("deliveryType",
    descriptor (prop DELIVERY_TYPES "suspend")
      [required (VBool true) (VBool true)]);
   ("duration",
    descriptor common_duration
      [required (VBool false) (VBool true);
       range (num 0) (num 86400000)]);
   ("expectedDuration",
    descriptor (num 0)
      [required (VBool false) (VBool false);
       range (VStr ">= `duration`") (num 86400000)]);
   previous;
   ("suppressed",
    descriptor (VObj [])
      [required (VBool false) (VBool false);
       ("nested", VBool true);
       ("keys",
        VObj
          [("type",
            descriptor (VStr TYPE) [required (VBool false) (VBool true)]);
           ("deliveryType",
            descriptor
              (VArr [prop DELIVERY_TYPES "temp";
                     prop DELIVERY_TYPES "suspend"])
              [required (VBool false) (VBool true)]);
           ("percent", descriptor (VFun "percentInstance" percentInstance) percentSummary);
           ("rate",
            VObj [("instance", common_basalRateValue);
                  ("summary", common_basalRateSummary)]);
           ("scheduleName",
            descriptor common_SCHEDULE_NAMES scheduleName_summary);
           ("suppressed",
            descriptor (VObj [])
              [required (VBool false) (VBool false)])])])].

Definition schemas : object :=
  [("base", VObj base);
   ("scheduled", VObj scheduled);
   ("temp", VObj temp);
   ("suspend", VObj suspend)].
End Schemas.

(** [module.deliveryTypes = _.values(DELIVERY_TYPES)]. *)
Definition deliveryTypes : list value := Lodash.values DELIVERY_TYPES.

(** The options object [generate] is called with; a property the caller
    leaves out reads as [undefined]. *)
Record options := {
  subType : value;
  timestamp : value;
  format : value
}.

Section Generate.
(** The runtime's string conversions. *)
Variable ToString_other : value -> string.
Variable StringToNumber : string -> number.
(** [moment(input)], the local zone, and [m.toISOString()]. *)
Variable moment : value -> Moment.moment.
Variable utcOffset : Z -> Z.
Variable toISOString : Moment.moment -> value.
(** [common.generate] and the constants of common.js. *)
Variable common_generate : object -> value -> value -> world -> object * world.
Variable common_duration : value.
Variable common_basalRateValue : value.
Variable common_basalRateSummary : value.
Variable common_SCHEDULE_NAMES : value.

Let ToString := ToString ToString_other.
Let times := times ToString_other StringToNumber.
Let schemas :=
  schemas common_duration common_basalRateValue common_basalRateSummary
          common_SCHEDULE_NAMES.

(** The message of line 376. *)
Definition unknown_subType_message : string :=
  "Basal subType (= deliveryType) must be one of: "
  ++ String.concat ", " (map ToString deliveryTypes) ++ "!".

(** [_.assign({}, schemas.base, schemas[subType])] (line 381). *)
Definition compose (fragments : list value) : object :=
  Lodash.assign [] fragments.

Definition effective_schema (subType : value) : object :=
  compose [prop schemas "base"; prop schemas (ToString subType)].

(** Line 388. *)
Definition suppressed_schema : object :=
  compose [prop schemas "base"; prop schemas "scheduled"].

(** [moment(opts.timestamp).startOf('hour')] (line 379). *)
Definition roundedTimestamp (opts : options) : Moment.moment :=
  Moment.startOf_hour utcOffset (moment (timestamp opts)).

(** Lines 391-395, for a temp or suspend basal. *)
Definition attach_suppressed (basal suppressed : object) : object :=
  let basal :=
    set "suppressed"
      (VObj (Lodash.pick suppressed
               ["type"; "deliveryType"; "scheduleName"; "rate"])) basal in
  let basal :=
    if truthy (prop basal "percent")
    then set "rate" (times (prop basal "percent") (prop suppressed "rate")) basal
    else basal in
  set "expectedDuration"
    (times (VNum (Number.decimal 12 1)) (prop basal "duration")) basal.

(** Lines 398-400, for the other delivery types. *)
Definition drop_expectedDuration (basal : object) : object :=
  if not_nullish (prop basal "expectedDuration")
  then delete "expectedDuration" basal
  else basal.

(** [module.generate] (lines 374-403). *)
Definition generate (opts : options) (w : world) : outcome object * world :=
  if negb (Lodash.includes deliveryTypes (subType opts)) then
    (Exited 0, console_error unknown_subType_message w)
  else
    let roundedTimestamp := roundedTimestamp opts in
    let (basal, w1) :=
      common_generate (effective_schema (subType opts))
        (toISOString roundedTimestamp) (format opts) w in
    let basal := delete "previous" basal in
    if Lodash.includes [VStr "temp"; VStr "suspend"] (subType opts) then
      let (suppressed, w2) :=
        common_generate suppressed_schema
          (toISOString roundedTimestamp) VUndefined w1 in
      (Returned (attach_suppressed basal suppressed), w2)
    else
      (Returned (drop_expectedDuration basal), w1).
End Generate.

End Basal.

(* ================================================================== *)
(** ** bloodKetone.js *)

Module BloodKetone.
Import World JS.

Definition TYPE : string := "bloodKetone".
Definition UNITS : string := "mmol/L".

(** The function of lines 35-37. *)
Definition value_instance (w : world) : value * world :=
  let (x, s) := Chance.floating 0 5 1 (chance_bloodKetone w) in
  (VNum x, with_chance_bloodKetone s w).

(** The schema; its [description] texts come from common.js and are
    left out, as in the basal schemas. *)
Definition schema : object :=
  [("type", VObj [("instance", VStr TYPE)]);
   ("units", VObj [("instance", VStr UNITS)]);
   ("value", VObj [("instance", VFun "schema.value.instance" value_instance)])].

Section Generate.
Variable common_generate : object -> value -> value -> world -> object * world.

(** [module.generate] (lines 42-45). *)
Definition generate (utc format : value) (w : world) : object * world :=
  let (bk, w1) := common_generate schema utc format w in
  (bk, w1).
End Generate.

End BloodKetone.

(* ================================================================== *)
(** ** A sample environment

    One concrete choice for everything the modules take from outside: the
    runtime's conversions, moment for ISO 8601 timestamps in a zone seven
    hours behind UTC, an envelope and the constants of common.js after the
    examples of the generated documentation, and a world to start from. *)

Module Sample.
Import World JS.

Definition ToString_other (v : value) : string := "[object Object]".
Definition StringToNumber (s : string) : number := Number.NaN.

Definition digit (c : ascii) : option Z :=
  let n := Z.of_nat (nat_of_ascii c) - 48 in
  if (0 <=? n) && (n <=? 9) then Some n else None.

Fixpoint digits (s : string) (acc : Z) : option Z :=
  match s with
  | EmptyString => Some acc
  | String c rest =>
      match digit c with
      | Some d => digits rest (10 * acc + d)
      | None => None
      end
  end.

Definition field (s : string) (start len : nat) : option Z :=
  digits (substring start len s) 0.

Definition days_from_civil (y m d : Z) : Z :=
  let y := if m <=? 2 then y - 1 else y in
  let era := y / 400 in
  let yoe := y - era * 400 in
  let doy := (153 * (if 2 <? m then m - 3 else m + 9) + 2) / 5 + d - 1 in
  let doe := yoe * 365 + yoe / 4 - yoe / 100 + doy in
  era * 146097 + doe - 719468.

Definition civil_from_days (z : Z) : Z * Z * Z :=
  let z := z + 719468 in
  let era := z / 146097 in
  let doe := z - era * 146097 in
  let yoe := (doe - doe / 1460 + doe / 36524 - doe / 146096) / 365 in
  let doy := doe - (365 * yoe + yoe / 4 - yoe / 100) in
  let mp := (5 * doy + 2) / 153 in
  let d := doy - (153 * mp + 2) / 5 + 1 in
  let m := if mp <? 10 then mp + 3 else mp - 9 in
  (if m <=? 2 then yoe + era * 400 + 1 else yoe + era * 400, m, d).

(** [moment(v)] for a string of the form [YYYY-MM-DDTHH:mm:ss.sssZ]. *)
Definition moment (v : value) : Moment.moment :=
  match v with
  | VStr s =>
      match field s 0 4, field s 5 2, field s 8 2,
            field s 11 2, field s 14 2, field s 17 2, field s 20 3 with
      | Some y, Some mo, Some d, Some h, Some mi, Some sec, Some ms =>
          if String.eqb (substring 4 1 s ++ substring 7 1 s ++ substring 10 1 s
                         ++ substring 13 1 s ++ substring 16 1 s
                         ++ substring 19 1 s ++ substring 23 2 s) "--T::.Z"
          then Some (days_from_civil y mo d * 86400000
                     + h * 3600000 + mi * 60000 + sec * 1000 + ms)
          else None
      | _, _, _, _, _, _, _ => None
      end
  | _ => None
  end.

Definition utcOffset (t : Z) : Z := -420.

Fixpoint zeros (n : nat) : string :=
  match n with
  | O => EmptyString
  | S n' => String "0" (zeros n')
  end.

Definition pad (width : nat) (z : Z) : string :=
  let s := NilZero.string_of_uint (N.to_uint (Z.to_N z)) in
  zeros (width - String.length s) ++ s.

(** [m.toISOString()], for the years 0000 to 9999. *)
Definition toISOString (m : Moment.moment) : value :=
  match m with
  | Some t =>
      let '(y, mo, d) := civil_from_days (t / 86400000) in
      let r := t mod 86400000 in
      if (0 <=? y) && (y <=? 9999) then
        VStr (pad 4 y ++ "-" ++ pad 2 mo ++ "-" ++ pad 2 d ++ "T"
              ++ pad 2 (r / 3600000) ++ ":" ++ pad 2 (r / 60000 mod 60) ++ ":"
              ++ pad 2 (r / 1000 mod 60) ++ "." ++ pad 3 (r mod 1000) ++ "Z")
      else VNull
  | None => VNull
  end.

Definition envelope (utc format : value) (w : world)
  : list (Common.envelope_field * value) * world :=
  ([(Common.F_clockDriftOffset, VNum (Number.of_Z 0));
    (Common.F_conversionOffset, VNum (Number.of_Z 0));
    (Common.F_deviceId, VStr "DevId0987654321");
    (Common.F_time, utc);
    (Common.F_timezoneOffset, VNum (Number.of_Z (-420)));
    (Common.F_uploadId, VStr "SampleUploadId")], w).

Definition basalRateValue (w : world) : value * world :=
  let (x, s) := Chance.floating 0 2 3 (chance_common w) in
  (VNum x, with_chance_common s w).

Definition basalRateSummary : value :=
  VObj [Basal.required (VBool false) (VBool true);
        Basal.range (VStr "0.0") (VStr "20.0")].

Definition SCHEDULE_NAMES : value :=
  VArr [VStr "Standard"; VStr "Weekend"].

(** A random source that hands out the listed draws, then zeros. *)
Definition draws (l : list N) : stream := fun i => nth i l 0%N.

Definition start : world :=
  {| chance_basal := draws [4711; 12630; 20549]%N;
     chance_bloodKetone := draws [37; 48; 59]%N;
     chance_common := draws [86028157; 86132886; 86237615; 86342344]%N;
     stderr := [] |}.

(** The same world with a first draw of 3 for basal.js, which makes the
    generated percentage zero. *)
Definition start_percent_zero : world :=
  with_chance_basal (draws [3; 4; 5]%N) start.

(** [generate], from basal.js, in this environment. *)
Definition basal_generate : Basal.options -> world -> outcome object * world :=
  Basal.generate ToString_other StringToNumber moment utcOffset toISOString
    (Common.generate envelope)
    (VFun "common.duration" Common.duration)
    (VFun "common.basalRateValue" basalRateValue)
    basalRateSummary SCHEDULE_NAMES.

Definition temp_example : Basal.options :=
  {| Basal.subType := VStr "temp";
     Basal.timestamp := VStr "2016-05-04T08:18:06.425Z";
     Basal.format := VUndefined |}.

Definition bolus_example : Basal.options :=
  {| Basal.subType := VStr "bolus";
     Basal.timestamp := VStr "2016-05-04T08:18:06.425Z";
     Basal.format := VStr "client" |}.

(** The fragments of the temp basal, with this environment's constants. *)
Definition temp_fragments : list object :=
  [Basal.base;
   Basal.temp (VFun "common.duration" Common.duration)
     (VFun "common.basalRateValue" basalRateValue)
     basalRateSummary SCHEDULE_NAMES].

End Sample.

(* ================================================================== *)
(** ** Finite checks

    Boolean checks over the finitely many raw results of the random
    generators; the theorems below run them once. *)

Module Checks.
Import JS.

(** The integers [lo], [lo + 1], ..., [lo + n - 1]. *)
Fixpoint upto (n : nat) (lo : Z) : list Z :=
  match n with
  | O => []
  | S n' => lo :: upto n' (lo + 1)
  end.

(** Bitwise equality of numbers. *)
Definition same_bits (x y : number) : bool :=
  match x, y with
  | S754_zero a, S754_zero b => Bool.eqb a b
  | S754_infinity a, S754_infinity b => Bool.eqb a b
  | S754_nan, S754_nan => true
  | S754_finite a m e, S754_finite b m' e' =>
      Bool.eqb a b && Pos.eqb m m' && Z.eqb e e'
  | _, _ => false
  end.

(** The quotient [num / 10^fixed] that [chance.floating] returns. *)
Definition fixed_quotient (fixed : nat) (num : Z) : number :=
  Number.div (Number.of_Z num) (Number.of_Z (10 ^ Z.of_nat fixed)).

(** The twentieths [k / 20]. *)
Definition twentieth (k : Z) : number :=
  Number.div (Number.of_Z k) (Number.of_Z 20).

(** For the raw draw [num] of [percentInstance]: twenty times the float
    is a non-negative number that rounds to an integer of [0..20]. *)
Definition percent_draw_ok (num : Z) : bool :=
  match Number.mul (fixed_quotient Chance.default_fixed num) (Number.of_Z 20) with
  | S754_zero false => true
  | S754_finite false m e =>
      (0 <=? Number.round_Z false m e) && (Number.round_Z false m e <=? 20)
  | _ => false
  end.

(** A twentieth [k / 20]: finite, within [0, 1] and [0.0, 10.0], and zero
    for [k = 0] only. *)
Definition twentieth_ok (k : Z) : bool :=
  let p := twentieth k in
  Number.is_finite p
  && Number.leb Number.zero p
  && Number.leb p (Number.of_Z 1)
  && Number.leb (Number.decimal 0 1) p
  && Number.leb p (Number.decimal 100 1)
  && Bool.eqb (Number.is_zero p) (k =? 0)
  && (negb (Number.is_zero p) || same_bits p Number.zero).

(** A tenth [n / 10]: within [0, 5]. *)
Definition tenth_ok (n : Z) : bool :=
  let x := fixed_quotient 1 n in
  Number.is_finite x
  && Number.leb Number.zero x
  && Number.leb x (Number.of_Z 5).

Definition all_envelope_fields : list Common.envelope_field :=
  [Common.F_clockDriftOffset; Common.F_conversionOffset; Common.F_deviceId;
   Common.F_deviceTime; Common.F_guid; Common.F_time;
   Common.F_timezoneOffset; Common.F_uploadId; Common.F_active;
   Common.F_groupId; Common.F_schemaVersion; Common.F_version;
   Common.F_createdTime; Common.F_id].

(** Whether [k] is the name of an envelope field. *)
Definition is_envelope_name (k : string) : bool :=
  existsb (fun f => String.eqb (Common.field_name f) k) all_envelope_fields.

End Checks.

(* ================================================================== *)
(** ** More finite checks, and what composition looks up *)

Module Fragments.
Import JS.

(** The property [k] as the last of the fragments that has it gives it. *)
Fixpoint lookup_last (k : string) (fragments : list object) : option value :=
  match fragments with
  | [] => None
  | f :: rest =>
      match lookup_last k rest with
      | Some v => Some v
      | None => get k f
      end
  end.

(** Two objects have the same fields under the structural comparison:
    each has a property exactly when the other has it, and the two values
    are structurally equal. *)
Definition same_fields (o1 o2 : object) : Prop :=
  forall k,
    match get k o1, get k o2 with
    | Some v, Some v' => Lodash.isEqual v v' = true
    | None, None => True
    | _, _ => False
    end.

End Fragments.

Module MoreChecks.
Import Checks.

(** For the raw draw [num] of [percentInstance]: the float arithmetic of
    line 40 gives the twentieth nearest to [num / 10000], a tie going up. *)
Definition percent_exact_ok (num : Z) : bool :=
  same_bits
    (Number.div
       (Number.round
          (Number.mul (fixed_quotient Chance.default_fixed num) (Number.of_Z 20)))
       (Number.of_Z 20))
    (twentieth ((num + 250) / 500)).

(** The twentieth [k / 20] is a number, and a zero for [k = 0] only. *)
Definition twentieth_zero_ok (k : Z) : bool :=
  Bool.eqb (Number.is_zero (twentieth k)) (k =? 0)
  && negb (Number.is_nan (twentieth k)).

(** The tenth [n / 10] equals no other tenth of [0/10 .. 50/10]. *)
Definition tenth_distinct_ok (n : Z) : bool :=
  forallb
    (fun m => implb (Number.eqb (Number.decimal n 1) (Number.decimal m 1)) (n =? m))
    (upto 51 0).

End MoreChecks.

Module MoreSamples.
Import World JS.

Definition scheduled_example : Basal.options :=
  {| Basal.subType := VStr "scheduled";
     Basal.timestamp := VStr "2016-05-04T08:18:06.425Z";
     Basal.format := VStr "storage" |}.

Definition suspend_example : Basal.options :=
  {| Basal.subType := VStr "suspend";
     Basal.timestamp := VStr "2016-05-04T08:18:06.425Z";
     Basal.format := VStr "client" |}.

(** A world whose first draw for basal.js is [500 * k]. *)
Definition percent_world (k : Z) : world :=
  with_chance_basal (fun _ => Z.to_N (500 * k)) Sample.start.

(** A world whose first draw for bloodKetone.js is [n]. *)
Definition tenth_world (n : Z) : world :=
  with_chance_bloodKetone (fun _ => Z.to_N n) Sample.start.

(** The fragments of the temp basal written down a second time, each with
    its fields in the opposite order. *)
Definition temp_fragments_again : list object :=
  map (@rev (string * value)) Sample.temp_fragments.

End MoreSamples.

(* ================================================================== *)
(** * Checks on concrete inputs *)

Example round_2_5 :
  Number.round (Number.decimal 25 1) = Number.of_Z 3.
Proof. reflexivity. Qed.

Example round_neg_2_5 :
  Number.round (Number.decimal (-25) 1) = Number.of_Z (-2).
Proof. reflexivity. Qed.

Example round_neg_0_2 :
  Number.round (Number.decimal (-2) 1) = S754_zero true.
Proof. reflexivity. Qed.

Example decimal_0_1_bits :
  Number.decimal 1 1 = S754_finite false 7205759403792794 (-56).
Proof. reflexivity. Qed.

Example assign_overrides_in_place :
  Lodash.assign []
    [VObj [("a", VNum (Number.of_Z 1)); ("b", VNum (Number.of_Z 2))];
     VUndefined;
     VObj [("c", VNull); ("a", VStr "x")]]
  = [("a", VStr "x"); ("b", VNum (Number.of_Z 2)); ("c", VNull)].
Proof. reflexivity. Qed.

Example pick_follows_paths :
  Lodash.pick [("a", VNull); ("b", VBool true); ("c", VStr "x")] ["c"; "z"; "a"]
  = [("c", VStr "x"); ("a", VNull)].
Proof. reflexivity. Qed.

Example isEqual_ignores_order :
  Lodash.isEqual (VObj [("a", VNull); ("b", VArr [VBool true])])
                 (VObj [("b", VArr [VBool true]); ("a", VNull)]) = true.
Proof. reflexivity. Qed.

Example sample_moment :
  Sample.moment (VStr "2016-05-04T08:18:06.425Z") = Some 1462349886425.
Proof. reflexivity. Qed.

Example sample_rounded_timestamp :
  Sample.toISOString
    (Moment.startOf_hour Sample.utcOffset
       (Sample.moment (VStr "2016-05-04T08:18:06.425Z")))
  = VStr "2016-05-04T08:00:00.000Z".
Proof. reflexivity. Qed.

Example sample_temp_basal :
  fst (Sample.basal_generate Sample.temp_example Sample.start)
  = Returned
      [("type", VStr "basal");
       ("deliveryType", VStr "temp");
       ("duration", VNum (Number.of_Z 86028157));
       ("expectedDuration",
        VNum (Number.mul (Number.decimal 12 1) (Number.of_Z 86028157)));
       ("percent", VNum (Number.decimal 45 2));
       ("rate", VNum (Number.mul (Number.decimal 45 2) (Number.decimal 518 3)));
       ("suppressed",
        VObj [("type", VStr "basal");
              ("deliveryType", VStr "scheduled");
              ("scheduleName", VArr [VStr "Standard"; VStr "Weekend"]);
              ("rate", VNum (Number.decimal 518 3))]);
       ("clockDriftOffset", VNum (Number.of_Z 0));
       ("conversionOffset", VNum (Number.of_Z 0));
       ("deviceId", VStr "DevId0987654321");
       ("time", VStr "2016-05-04T08:00:00.000Z");
       ("timezoneOffset", VNum (Number.of_Z (-420)));
       ("uploadId", VStr "SampleUploadId")].
Proof. vm_compute. reflexivity. Qed.

Example sample_temp_basal_percent_zero :
  let out := fst (Sample.basal_generate Sample.temp_example
                    Sample.start_percent_zero) in
  match out with
  | Returned basal =>
      JS.prop basal "percent" = VNum Number.zero
      /\ JS.prop basal "rate" = VNum Number.zero
      /\ JS.member (JS.prop basal "suppressed") "rate"
         = VNum (Number.decimal 518 3)
  | Exited _ => False
  end.
Proof. vm_compute. repeat split. Qed.

Example sample_scheduled_basal :
  fst (Sample.basal_generate
         {| Basal.subType := VStr "scheduled";
            Basal.timestamp := VStr "2016-05-04T08:18:06.425Z";
            Basal.format := VStr "storage" |} Sample.start)
  = Returned
      [("type", VStr "basal");
       ("deliveryType", VStr "scheduled");
       ("duration", VNum (Number.of_Z 86028157));
       ("rate", VNum (Number.decimal 1842 3));
       ("scheduleName", VArr [VStr "Standard"; VStr "Weekend"]);
       ("clockDriftOffset", VNum (Number.of_Z 0));
       ("conversionOffset", VNum (Number.of_Z 0));
       ("deviceId", VStr "DevId0987654321");
       ("time", VStr "2016-05-04T08:00:00.000Z");
       ("timezoneOffset", VNum (Number.of_Z (-420)));
       ("uploadId", VStr "SampleUploadId")].
Proof. vm_compute. reflexivity. Qed.

Example sample_unknown_subType :
  fst (Sample.basal_generate Sample.bolus_example Sample.start) = Exited 0
  /\ World.stderr (snd (Sample.basal_generate Sample.bolus_example Sample.start))
     = ["Basal subType (= deliveryType) must be one of: scheduled, temp, suspend!"].
Proof. split; reflexivity. Qed.

Example half_of_two :
  JS.prop
    (Basal.attach_suppressed Sample.ToString_other Sample.StringToNumber
       [("percent", VNum (Number.decimal 5 1)); ("rate", VNum Number.zero)]
       [("rate", VNum (Number.decimal 20 1))])
    "rate"
  = VNum (Number.of_Z 1).
Proof. reflexivity. Qed.

Example sample_bloodKetone :
  fst (BloodKetone.generate (Common.generate Sample.envelope)
         (VStr "2016-05-04T08:18:06.425Z") (VStr "client") Sample.start)
  = [("type", VStr "bloodKetone");
     ("units", VStr "mmol/L");
     ("value", VNum (Number.decimal 37 1));
     ("clockDriftOffset", VNum (Number.of_Z 0));
     ("conversionOffset", VNum (Number.of_Z 0));
     ("deviceId", VStr "DevId0987654321");
     ("time", VStr "2016-05-04T08:18:06.425Z");
     ("timezoneOffset", VNum (Number.of_Z (-420)));
     ("uploadId", VStr "SampleUploadId")].
Proof. vm_compute. reflexivity. Qed.

(* ================================================================== *)
(** * Numbers *)

Module NumberFacts.
Import Number.

Lemma eqb_refl (x : number) : is_nan x = false -> eqb x x = true.
Proof.
  destruct x as [s | s | | s m e]; simpl; try discriminate; intros _.
  - reflexivity.
  - unfold eqb, SFeqb; simpl. now destruct s.
  - unfold eqb, SFeqb; simpl.
    rewrite Z.compare_refl.
    change (Pos.compare_cont Eq m m) with (Pos.compare m m).
    rewrite Pos.compare_refl. now destruct s.
Qed.

Lemma shr_1_nonneg (mrs : shr_record) :
  0 <= shr_m mrs -> 0 <= shr_m (shr_1 mrs).
Proof.
  destruct mrs as [m r s]; simpl.
  destruct m as [ | [p | p | ] | p]; simpl; lia.
Qed.

Lemma iter_shr_1_nonneg (p : positive) :
  forall mrs, 0 <= shr_m mrs -> 0 <= shr_m (iter_pos shr_1 p mrs).
Proof.
  induction p as [p IH | p IH | ]; intros mrs H; simpl.
  - apply IH, IH, shr_1_nonneg, H.
  - apply IH, IH, H.
  - apply shr_1_nonneg, H.
Qed.

Lemma shr_nonneg (mrs : shr_record) (e n : Z) :
  0 <= shr_m mrs -> 0 <= shr_m (fst (shr mrs e n)).
Proof.
  intros H. unfold shr. destruct n; simpl; auto using iter_shr_1_nonneg.
Qed.

Lemma shr_fexp_nonneg (m e : Z) (l : location) :
  0 <= m -> 0 <= shr_m (fst (shr_fexp prec emax m e l)).
Proof.
  intros H. unfold shr_fexp. apply shr_nonneg.
  destruct l as [ | [ | | ]]; simpl; exact H.
Qed.

Lemma round_nearest_even_nonneg (m : Z) (l : location) :
  0 <= m -> 0 <= round_nearest_even m l.
Proof.
  intros H. unfold round_nearest_even.
  destruct l as [ | [ | | ]]; try destruct (Z.even m); lia.
Qed.

(** Rounding a non-negative mantissa never gives [NaN]. *)
Lemma binary_round_aux_not_nan (sx : bool) (mx ex : Z) (lx : location) :
  0 <= mx -> is_nan (binary_round_aux prec emax sx mx ex lx) = false.
Proof.
  intros H. unfold binary_round_aux.
  pose proof (shr_fexp_nonneg mx ex lx H) as H1.
  destruct (shr_fexp prec emax mx ex lx) as [mrs' e']. simpl in H1.
  pose proof (shr_fexp_nonneg _ e' loc_Exact
                (round_nearest_even_nonneg _ (loc_of_shr_record mrs') H1)) as H2.
  destruct (shr_fexp prec emax _ e' loc_Exact) as [mrs'' e'']. simpl in H2.
  destruct (shr_m mrs'') as [ | p | p].
  - reflexivity.
  - now destruct (e'' <=? emax - prec).
  - lia.
Qed.

(** The product of two finite numbers is a number. *)
Lemma mul_finite_not_nan (x y : number) :
  is_finite x = true -> is_finite y = true -> is_nan (mul x y) = false.
Proof.
  destruct x as [sx | sx | | sx mx ex]; try discriminate;
    destruct y as [sy | sy | | sy my ey]; try discriminate; intros _ _;
    try reflexivity.
  unfold mul, SFmul. apply binary_round_aux_not_nan. lia.
Qed.

(** A product with a finite number equals itself under [===]. *)
Lemma mul_finite_eqb (x y : number) :
  is_finite x = true -> is_finite y = true -> eqb (mul x y) (mul x y) = true.
Proof.
  intros Hx Hy. apply eqb_refl, mul_finite_not_nan; assumption.
Qed.

(** Zero times a finite number is a zero. *)
Lemma mul_zero_finite (y : number) :
  is_finite y = true -> eqb zero (mul zero y) = true.
Proof.
  destruct y as [sy | sy | | sy my ey]; try discriminate; intros _;
    reflexivity.
Qed.

Lemma same_bits_eq (x y : number) : Checks.same_bits x y = true -> x = y.
Proof.
  destruct x as [a | a | | a m e], y as [b | b | | b m' e'];
    simpl; try discriminate; intros H.
  - apply Bool.eqb_prop in H. now subst.
  - apply Bool.eqb_prop in H. now subst.
  - reflexivity.
  - apply andb_prop in H as [H He]. apply andb_prop in H as [Hs Hm].
    apply Bool.eqb_prop in Hs. apply Pos.eqb_eq in Hm. apply Z.eqb_eq in He.
    now subst.
Qed.

End NumberFacts.

(* ================================================================== *)
(** * Finite checks, run *)

Module CheckFacts.
Import Checks.

Lemma forallb_upto (f : Z -> bool) (n : nat) :
  forall lo, forallb f (upto n lo) = true ->
  forall z, lo <= z < lo + Z.of_nat n -> f z = true.
Proof.
  induction n as [ | n IH]; intros lo H z Hz.
  - simpl in Hz. lia.
  - simpl in H. apply andb_prop in H as [H0 H1].
    destruct (Z.eq_dec z lo) as [-> | Hne]; [exact H0 | ].
    apply (IH (lo + 1) H1). lia.
Qed.

Lemma percent_draws_checked :
  forallb percent_draw_ok (upto (Z.to_nat 10001) 0) = true.
Proof. vm_compute. reflexivity. Qed.

Lemma twentieths_checked :
  forallb twentieth_ok (upto 21 0) = true.
Proof. vm_compute. reflexivity. Qed.

Lemma tenths_checked :
  forallb tenth_ok (upto 51 0) = true.
Proof. vm_compute. reflexivity. Qed.

End CheckFacts.

(* ================================================================== *)
(** * Objects *)

Module ObjectFacts.
Import JS.

Lemma get_set (k k' : string) (v : value) (o : object) :
  get k' (set k v o) = if String.eqb k k' then Some v else get k' o.
Proof.
  induction o as [ | [k0 v0] o IH]; simpl.
  - reflexivity.
  - destruct (String.eqb_spec k0 k) as [-> | Hk]; simpl.
    + now destruct (String.eqb k k').
    + destruct (String.eqb_spec k0 k') as [-> | Hk'].
      * apply not_eq_sym, String.eqb_neq in Hk. now rewrite Hk.
      * exact IH.
Qed.

Lemma prop_set (k k' : string) (v : value) (o : object) :
  prop (set k v o) k' = if String.eqb k k' then v else prop o k'.
Proof.
  unfold prop. rewrite get_set. now destruct (String.eqb k k').
Qed.

Lemma get_delete (k k' : string) (o : object) :
  get k' (delete k o) = if String.eqb k k' then None else get k' o.
Proof.
  induction o as [ | [k0 v0] o IH]; simpl.
  - now destruct (String.eqb k k').
  - destruct (String.eqb_spec k0 k) as [-> | Hk]; simpl.
    + rewrite IH. now destruct (String.eqb k k').
    + destruct (String.eqb_spec k0 k') as [-> | Hk'].
      * apply not_eq_sym, String.eqb_neq in Hk. now rewrite Hk.
      * exact IH.
Qed.

Lemma prop_delete (k k' : string) (o : object) :
  prop (delete k o) k' = if String.eqb k k' then VUndefined else prop o k'.
Proof.
  unfold prop. rewrite get_delete. now destruct (String.eqb k k').
Qed.

Lemma has_set (k k' : string) (v : value) (o : object) :
  has k' (set k v o) = String.eqb k k' || has k' o.
Proof.
  unfold has. rewrite get_set. now destruct (String.eqb k k').
Qed.

Lemma has_delete (k k' : string) (o : object) :
  has k' (delete k o) = negb (String.eqb k k') && has k' o.
Proof.
  unfold has. rewrite get_delete. now destruct (String.eqb k k').
Qed.

Lemma get_None_iff (k : string) (o : object) :
  get k o = None <-> ~ In k (keys o).
Proof.
  induction o as [ | [k0 v0] o IH]; simpl.
  - tauto.
  - destruct (String.eqb_spec k0 k) as [-> | Hk].
    + split; [discriminate | intros H; exfalso; apply H; now left].
    + rewrite IH. tauto.
Qed.

Lemma has_false_iff (k : string) (o : object) :
  has k o = false <-> ~ In k (keys o).
Proof.
  rewrite <- get_None_iff. unfold has.
  destruct (get k o); split; congruence.
Qed.

Lemma In_keys_set (x k : string) (v : value) (o : object) :
  In x (keys (set k v o)) <-> x = k \/ In x (keys o).
Proof.
  induction o as [ | [k0 v0] o IH]; simpl.
  - intuition.
  - destruct (String.eqb_spec k0 k) as [-> | Hk]; simpl.
    + intuition.
    + rewrite IH. intuition.
Qed.

Lemma existsb_eqb_In (k : string) (l : list string) :
  existsb (String.eqb k) l = true <-> In k l.
Proof.
  rewrite existsb_exists. split.
  - intros [x [Hx He]]. apply String.eqb_eq in He. now subst.
  - intros H. exists k. split; [exact H | apply String.eqb_refl].
Qed.

Lemma nodup_keys_iff (l : list string) :
  nodup_keys l = true <-> NoDup l.
Proof.
  induction l as [ | k l IH]; simpl.
  - split; [constructor | reflexivity].
  - rewrite andb_true_iff, negb_true_iff, IH.
    split.
    + intros [Hn Hd]. constructor; [ | exact Hd].
      intros Hin. apply existsb_eqb_In in Hin. congruence.
    + intros H. inversion H as [ | ? ? Hn Hd]; subst. split; [ | exact Hd].
      destruct (existsb (String.eqb k) l) eqn:E; [ | reflexivity].
      apply existsb_eqb_In in E. contradiction.
Qed.

Lemma NoDup_keys_set (k : string) (v : value) (o : object) :
  NoDup (keys o) -> NoDup (keys (set k v o)).
Proof.
  induction o as [ | [k0 v0] o IH]; simpl; intros H.
  - constructor; [intros [] | constructor].
  - inversion H as [ | ? ? Hn Hd]; subst.
    destruct (String.eqb_spec k0 k) as [-> | Hk]; simpl.
    + now constructor.
    + constructor; [ | now apply IH].
      rewrite In_keys_set. intros [-> | Hin]; [now apply Hk | contradiction].
Qed.

Lemma get_In (k : string) (v : value) (o : object) :
  NoDup (keys o) -> In (k, v) o -> get k o = Some v.
Proof.
  induction o as [ | [k0 v0] o IH]; simpl; intros Hd Hin.
  - contradiction.
  - inversion Hd as [ | ? ? Hn Hd']; subst.
    destruct Hin as [E | Hin].
    + inversion E; subst. now rewrite String.eqb_refl.
    + destruct (String.eqb_spec k0 k) as [-> | Hk].
      * exfalso. apply Hn. change k with (fst (k, v)). now apply in_map.
      * now apply IH.
Qed.

Lemma values_wf_set (k : string) (v : value) (o : object) :
  wf v = true ->
  forallb (fun kv => wf (snd kv)) o = true ->
  forallb (fun kv => wf (snd kv)) (set k v o) = true.
Proof.
  intros Hv. induction o as [ | [k0 v0] o IH]; simpl; intros H.
  - now rewrite Hv.
  - apply andb_prop in H as [H0 H1].
    destruct (String.eqb k0 k); simpl.
    + now rewrite Hv, H1.
    + now rewrite H0, IH.
Qed.

(** Assigning a well-formed value keeps an object well formed. *)
Lemma wf_set (k : string) (v : value) (o : object) :
  wf v = true -> wf (VObj o) = true -> wf (VObj (set k v o)) = true.
Proof.
  simpl. intros Hv H. apply andb_prop in H as [Hd Hw].
  apply andb_true_intro. split.
  - apply nodup_keys_iff, NoDup_keys_set, nodup_keys_iff, Hd.
  - now apply values_wf_set.
Qed.

(** The induction principle of values, through arrays and objects. *)
Lemma value_ind (P : value -> Prop)
  (Hundefined : P VUndefined)
  (Hnull : P VNull)
  (Hbool : forall b, P (VBool b))
  (Hnum : forall x, P (VNum x))
  (Hstr : forall s, P (VStr s))
  (Hfun : forall name call, P (VFun name call))
  (Harr : forall l, Forall P l -> P (VArr l))
  (Hobj : forall o, Forall (fun kv => P (snd kv)) o -> P (VObj o)) :
  forall v, P v.
Proof.
  fix IH 1. intros [ | | b | x | s | name call | l | o].
  - exact Hundefined.
  - exact Hnull.
  - apply Hbool.
  - apply Hnum.
  - apply Hstr.
  - apply Hfun.
  - apply Harr. induction l as [ | a l IHl]; constructor; [apply IH | exact IHl].
  - apply Hobj. induction o as [ | a o IHo]; constructor; [apply IH | exact IHo].
Qed.

End ObjectFacts.

(* ================================================================== *)
(** * lodash *)

Module LodashFacts.
Import JS Lodash ObjectFacts.

Local Abbreviation assign_props :=
  (fold_left (fun (t' : object) (kv : string * value) => set (fst kv) (snd kv) t')).

Lemma get_assign_props_other (k : string) (l : object) :
  forall t, ~ In k (keys l) -> get k (assign_props l t) = get k t.
Proof.
  induction l as [ | [k0 v0] l IH]; simpl; intros t H.
  - reflexivity.
  - rewrite IH by tauto. rewrite get_set.
    destruct (String.eqb_spec k0 k) as [-> | Hk]; [ | reflexivity].
    exfalso. apply H. now left.
Qed.

Lemma In_keys_assign_props (x : string) (l : object) :
  forall t, In x (keys (assign_props l t)) -> In x (keys t) \/ In x (keys l).
Proof.
  induction l as [ | [k0 v0] l IH]; simpl; intros t H.
  - now left.
  - apply IH in H as [H | H]; [ | tauto].
    apply In_keys_set in H. simpl in H. intuition.
Qed.

Lemma wf_assign_props (l : object) :
  forall t, wf (VObj t) = true ->
  forallb (fun kv => wf (snd kv)) l = true ->
  wf (VObj (assign_props l t)) = true.
Proof.
  induction l as [ | [k0 v0] l IH]; intros t Ht Hl.
  - exact Ht.
  - simpl in Hl. apply andb_prop in Hl as [H0 H1].
    simpl fold_left. apply IH; [ | exact H1].
    now apply wf_set.
Qed.

(** [_.assign] of well-formed objects into a well-formed object. *)
Lemma wf_assign (sources : list object) :
  forall t, wf (VObj t) = true ->
  forallb (fun o => wf (VObj o)) sources = true ->
  wf (VObj (assign t (map VObj sources))) = true.
Proof.
  unfold assign.
  induction sources as [ | o sources IH]; intros t Ht Hs.
  - exact Ht.
  - simpl in Hs. apply andb_prop in Hs as [Ho Hs].
    simpl fold_left. apply IH; [ | exact Hs].
    apply wf_assign_props; [exact Ht | ].
    simpl in Ho. now apply andb_prop in Ho as [_ Ho].
Qed.

Lemma sameValueZero_num_refl (x : number) :
  sameValueZero (VNum x) (VNum x) = true.
Proof.
  simpl. destruct (Number.is_nan x) eqn:E.
  - apply orb_true_r.
  - now rewrite NumberFacts.eqb_refl.
Qed.

(** The structural comparison is reflexive on well-formed values. *)
Lemma isEqual_refl (v : value) : wf v = true -> isEqual v v = true.
Proof.
  induction v as [ | | b | x | s | name call | l IH | o IH]
    using ObjectFacts.value_ind; intros Hwf.
  - reflexivity.
  - reflexivity.
  - apply Bool.eqb_reflx.
  - apply sameValueZero_num_refl.
  - apply String.eqb_refl.
  - apply String.eqb_refl.
  - simpl in Hwf. simpl.
    induction IH as [ | a l Ha Hl IHl]; [reflexivity | ].
    simpl in Hwf. apply andb_prop in Hwf as [Hwa Hwl].
    rewrite (Ha Hwa). simpl. exact (IHl Hwl).
  - simpl in Hwf. apply andb_prop in Hwf as [Hd Hw].
    apply nodup_keys_iff in Hd.
    simpl. rewrite Nat.eqb_refl. simpl.
    apply forallb_forall. intros [k v] Hin.
    rewrite (get_In k v o Hd Hin).
    rewrite Forall_forall in IH. apply (IH (k, v) Hin).
    rewrite forallb_forall in Hw. exact (Hw (k, v) Hin).
Qed.

Lemma get_pick_step (o : object) (k : string) (paths : list string) :
  forall r,
    get k (fold_left
             (fun r k' => match get k' o with Some v => set k' v r | None => r end)
             paths r)
    = if existsb (String.eqb k) paths
      then match get k o with Some v => Some v | None => get k r end
      else get k r.
Proof.
  induction paths as [ | a paths IH]; simpl; intros r.
  - reflexivity.
  - rewrite IH.
    destruct (String.eqb_spec k a) as [<- | Hk]; simpl.
    + destruct (get k o) as [v | ] eqn:E.
      * rewrite get_set, String.eqb_refl.
        now destruct (existsb (String.eqb k) paths).
      * now destruct (existsb (String.eqb k) paths).
    + assert (Hr : get k (match get a o with Some v => set a v r | None => r end)
                   = get k r).
      { destruct (get a o); [ | reflexivity].
        rewrite get_set. apply not_eq_sym, String.eqb_neq in Hk. now rewrite Hk. }
      now rewrite Hr.
Qed.

(** What [_.pick] leaves: the listed properties, as the source has them. *)
Lemma get_pick (o : object) (paths : list string) (k : string) :
  get k (pick o paths)
  = if existsb (String.eqb k) paths then get k o else None.
Proof.
  unfold pick. rewrite get_pick_step. simpl.
  now destruct (existsb (String.eqb k) paths), (get k o).
Qed.

End LodashFacts.

(* ================================================================== *)
(** * common.generate, as modelled *)

Module CommonFacts.
Import World JS Common ObjectFacts LodashFacts.

Lemma resolve_all_keys (schema : object) :
  forall w, keys (fst (resolve_all schema w)) = keys schema.
Proof.
  induction schema as [ | [k d] schema IH]; intros w; simpl.
  - reflexivity.
  - destruct (resolve d w) as [v w1].
    specialize (IH w1). destruct (resolve_all schema w1) as [o w2].
    simpl in *. now rewrite IH.
Qed.

(** A field of the schema is resolved from its own descriptor. *)
Lemma resolve_all_get (schema : object) (k : string) (d : value) :
  forall w, get k schema = Some d ->
  exists w', get k (fst (resolve_all schema w)) = Some (fst (resolve d w')).
Proof.
  induction schema as [ | [k0 d0] schema IH]; intros w; simpl.
  - discriminate.
  - destruct (resolve d0 w) as [v w1] eqn:E.
    specialize (IH w1). destruct (resolve_all schema w1) as [o w2].
    simpl in *. destruct (String.eqb k0 k).
    + intros [= <-]. exists w. now rewrite E.
    + exact IH.
Qed.

Lemma resolve_all_get_None (schema : object) (k : string) :
  forall w, get k schema = None -> get k (fst (resolve_all schema w)) = None.
Proof.
  intros w H. apply get_None_iff. rewrite resolve_all_keys.
  now apply get_None_iff.
Qed.

Lemma field_name_is_envelope_name (f : envelope_field) :
  Checks.is_envelope_name (field_name f) = true.
Proof. now destruct f. Qed.

Lemma envelope_object_keys (env : list (envelope_field * value)) (k : string) :
  In k (keys (envelope_object env)) -> Checks.is_envelope_name k = true.
Proof.
  unfold envelope_object, Lodash.assign. simpl. intros H.
  apply In_keys_assign_props in H as [[] | H].
  unfold keys in H. rewrite map_map in H. simpl in H.
  apply in_map_iff in H as [[f v] [<- _]]. apply field_name_is_envelope_name.
Qed.

(** The envelope leaves the fields of the record type alone. *)
Lemma generate_get envelope (schema : object) (utc format : value)
      (w : world) (k : string) :
  Checks.is_envelope_name k = false ->
  get k (fst (generate envelope schema utc format w))
  = get k (fst (resolve_all schema w)).
Proof.
  intros Hk. unfold generate.
  destruct (resolve_all schema w) as [bare w1].
  destruct (envelope utc format w1) as [env w2]. simpl.
  unfold Lodash.assign. simpl.
  apply get_assign_props_other.
  intros Hin. apply envelope_object_keys in Hin. congruence.
Qed.

Lemma generate_prop_literal envelope (schema : object) (utc format : value)
      (w : world) (k : string) (d : value) :
  Checks.is_envelope_name k = false ->
  get k schema = Some d ->
  is_function (member d "instance") = false ->
  prop (fst (generate envelope schema utc format w)) k = member d "instance".
Proof.
  intros Hk Hd Hf. unfold prop. rewrite generate_get by exact Hk.
  destruct (resolve_all_get schema k d w Hd) as [w' ->].
  unfold resolve. now destruct (member d "instance").
Qed.

Lemma generate_prop_function envelope (schema : object) (utc format : value)
      (w : world) (k : string) (d : value) (name : string) call :
  Checks.is_envelope_name k = false ->
  get k schema = Some d ->
  member d "instance" = VFun name call ->
  exists w', prop (fst (generate envelope schema utc format w)) k = fst (call w').
Proof.
  intros Hk Hd Hf. unfold prop. rewrite generate_get by exact Hk.
  destruct (resolve_all_get schema k d w Hd) as [w' ->].
  exists w'. unfold resolve. now rewrite Hf.
Qed.

Lemma generate_has envelope (schema : object) (utc format : value)
      (w : world) (k : string) :
  Checks.is_envelope_name k = false ->
  has k (fst (generate envelope schema utc format w)) = has k schema.
Proof.
  intros Hk. unfold has. rewrite generate_get by exact Hk.
  destruct (get k schema) as [d | ] eqn:E.
  - now destruct (resolve_all_get schema k d w E) as [w' ->].
  - now rewrite resolve_all_get_None.
Qed.

End CommonFacts.

(* ================================================================== *)
(** * basal.js: generate, whatever common.generate returns *)

(** Comparisons of two string literals, evaluated. *)
Ltac eval_eqb :=
  repeat match goal with
    | |- context [String.eqb ?a ?b] =>
        let r := eval vm_compute in (String.eqb a b) in
        lazymatch r with
        | true => change (String.eqb a b) with true
        | false => change (String.eqb a b) with false
        end
    end;
  cbv beta iota.

Section BasalGenerate.
Import World JS ObjectFacts LodashFacts.

Variable ToString_other : value -> string.
Variable StringToNumber : string -> number.
Variable moment : value -> Moment.moment.
Variable utcOffset : Z -> Z.
Variable toISOString : Moment.moment -> value.
Variable common_generate : object -> value -> value -> world -> object * world.
Variable common_duration : value.
Variable common_basalRateValue : value.
Variable common_basalRateSummary : value.
Variable common_SCHEDULE_NAMES : value.

Local Abbreviation generate :=
  (Basal.generate ToString_other StringToNumber moment utcOffset toISOString
     common_generate common_duration common_basalRateValue
     common_basalRateSummary common_SCHEDULE_NAMES).
Local Abbreviation effective_schema :=
  (Basal.effective_schema ToString_other common_duration common_basalRateValue
     common_basalRateSummary common_SCHEDULE_NAMES).
Local Abbreviation suppressed_schema :=
  (Basal.suppressed_schema common_duration common_basalRateValue
     common_basalRateSummary common_SCHEDULE_NAMES).
Local Abbreviation attach_suppressed :=
  (Basal.attach_suppressed ToString_other StringToNumber).
Local Abbreviation times := (JS.times ToString_other StringToNumber).

(** The known delivery types are the three strings. *)
Lemma known_subType (v : value) :
  Lodash.includes Basal.deliveryTypes v = true
  <-> v = VStr "scheduled" \/ v = VStr "temp" \/ v = VStr "suspend".
Proof.
  split.
  - destruct v as [ | | b | x | s | name call | l | o];
      try (intros H; vm_compute in H; discriminate H).
    change (Lodash.includes Basal.deliveryTypes (VStr s))
      with (String.eqb "scheduled" s
            || (String.eqb "temp" s || (String.eqb "suspend" s || false))).
    destruct (String.eqb_spec "scheduled" s) as [<- | _]; [now left | ].
    destruct (String.eqb_spec "temp" s) as [<- | _]; [now right; left | ].
    destruct (String.eqb_spec "suspend" s) as [<- | _]; [now right; right | ].
    discriminate.
  - now intros [-> | [-> | ->]].
Qed.

(** What [attach_suppressed] leaves in the record. *)
Lemma attach_suppressed_props (b s : object) :
  let out := attach_suppressed b s in
  prop out "suppressed"
  = VObj (Lodash.pick s ["type"; "deliveryType"; "scheduleName"; "rate"])
  /\ prop out "percent" = prop b "percent"
  /\ prop out "rate"
     = (if truthy (prop b "percent")
        then times (prop b "percent") (prop s "rate")
        else prop b "rate")
  /\ prop out "duration" = prop b "duration"
  /\ prop out "expectedDuration"
     = times (VNum (Number.decimal 12 1)) (prop b "duration")
  /\ prop out "deliveryType" = prop b "deliveryType"
  /\ has "previous" out = has "previous" b.
Proof.
  unfold Basal.attach_suppressed.
  rewrite !prop_set. eval_eqb.
  destruct (truthy (prop b "percent"));
    rewrite ?has_set, ?prop_set; eval_eqb; repeat split; reflexivity.
Qed.

Lemma drop_expectedDuration_previous (b : object) :
  has "previous" (Basal.drop_expectedDuration b) = has "previous" b.
Proof.
  unfold Basal.drop_expectedDuration.
  destruct (not_nullish (prop b "expectedDuration")); [ | reflexivity].
  rewrite has_delete. eval_eqb. reflexivity.
Qed.

Lemma nested_subType (v : value) :
  Lodash.includes [VStr "temp"; VStr "suspend"] v = true
  <-> v = VStr "temp" \/ v = VStr "suspend".
Proof.
  split.
  - destruct v as [ | | b | x | s | name call | l | o];
      try (intros H; vm_compute in H; discriminate H).
    change (Lodash.includes [VStr "temp"; VStr "suspend"] (VStr s))
      with (String.eqb "temp" s || (String.eqb "suspend" s || false)).
    destruct (String.eqb_spec "temp" s) as [<- | _]; [now left | ].
    destruct (String.eqb_spec "suspend" s) as [<- | _]; [now right | ].
    discriminate.
  - now intros [-> | ->].
Qed.

Lemma nested_subType_known (v : value) :
  Lodash.includes [VStr "temp"; VStr "suspend"] v = true ->
  Lodash.includes Basal.deliveryTypes v = true.
Proof.
  intros H. apply nested_subType in H. apply known_subType. tauto.
Qed.

(** [generate] for a temp or suspend basal, call by call. *)
Lemma generate_nested (opts : Basal.options) (w : world) :
  Lodash.includes [VStr "temp"; VStr "suspend"] (Basal.subType opts) = true ->
  let utc :=
    toISOString (Moment.startOf_hour utcOffset (moment (Basal.timestamp opts))) in
  let outer :=
    common_generate (effective_schema (Basal.subType opts)) utc
      (Basal.format opts) w in
  let nested := common_generate suppressed_schema utc VUndefined (snd outer) in
  generate opts w
  = (Returned (attach_suppressed (delete "previous" (fst outer)) (fst nested)),
     snd nested).
Proof.
  intros H. cbv zeta. unfold Basal.generate.
  pose proof (nested_subType_known _ H) as Hk.
  rewrite Hk, H. simpl negb. cbv iota.
  unfold Basal.roundedTimestamp.
  destruct (common_generate _ _ (Basal.format opts) w) as [basal w1].
  simpl fst; simpl snd.
  now destruct (common_generate _ _ VUndefined w1) as [suppressed w2].
Qed.

(** [generate] for a scheduled basal, call by call. *)
Lemma generate_flat (opts : Basal.options) (w : world) :
  Lodash.includes Basal.deliveryTypes (Basal.subType opts) = true ->
  Lodash.includes [VStr "temp"; VStr "suspend"] (Basal.subType opts) = false ->
  let utc :=
    toISOString (Moment.startOf_hour utcOffset (moment (Basal.timestamp opts))) in
  let outer :=
    common_generate (effective_schema (Basal.subType opts)) utc
      (Basal.format opts) w in
  generate opts w
  = (Returned (Basal.drop_expectedDuration (delete "previous" (fst outer))),
     snd outer).
Proof.
  intros Hk H. cbv zeta. unfold Basal.generate.
  rewrite Hk, H. simpl negb. cbv iota.
  unfold Basal.roundedTimestamp.
  now destruct (common_generate _ _ (Basal.format opts) w) as [basal w1].
Qed.

Lemma startOf_hour_spec (t : Z) :
  let t' := t - (t + utcOffset t * Moment.MS_PER_MINUTE) mod Moment.MS_PER_HOUR in
  t' <= t < t' + 3600000
  /\ (t' + utcOffset t * 60000) mod 3600000 = 0.
Proof.
  unfold Moment.MS_PER_MINUTE, Moment.MS_PER_HOUR. cbv zeta.
  set (a := t + utcOffset t * 60000).
  pose proof (Z.mod_pos_bound a 3600000 ltac:(lia)) as Hr.
  split; [lia | ].
  replace (t - a mod 3600000 + utcOffset t * 60000)
    with (a / 3600000 * 3600000).
  - apply Z.mod_mul. lia.
  - pose proof (Z.div_mod a 3600000 ltac:(lia)). unfold a in *. lia.
Qed.

(** [generate] sees its timestamp through the rounded moment only. *)
Lemma generate_same_hour (opts opts' : Basal.options) (w : world) :
  Basal.subType opts = Basal.subType opts' ->
  Basal.format opts = Basal.format opts' ->
  Moment.startOf_hour utcOffset (moment (Basal.timestamp opts))
  = Moment.startOf_hour utcOffset (moment (Basal.timestamp opts')) ->
  generate opts w = generate opts' w.
Proof.
  intros Hs Hf Ht. unfold Basal.generate, Basal.roundedTimestamp.
  now rewrite Hs, Hf, Ht.
Qed.

(** C3: for every options object whose [subType] is not one of the
    delivery types scheduled, temp and suspend, basal [generate] reports
    the unknown discriminant on the error console and the process exits;
    no instance is returned, so no variant is silently taken as a default. *)
Theorem unknown_subType_exits (opts : Basal.options) (w : world) :
  Lodash.includes Basal.deliveryTypes (Basal.subType opts) = false ->
  generate opts w
  = (Exited 0,
     console_error
       "Basal subType (= deliveryType) must be one of: scheduled, temp, suspend!"
       w)
  /\ forall out w', generate opts w <> (Returned out, w').
Proof.
  intros H.
  assert (E : generate opts w
              = (Exited 0,
                 console_error
                   "Basal subType (= deliveryType) must be one of: scheduled, temp, suspend!"
                   w)).
  { unfold Basal.generate. rewrite H. reflexivity. }
  split; [exact E | ].
  intros out w'. rewrite E. discriminate.
Qed.

(** C5: for every basal generation of a known delivery type, the
    timestamp is rounded to the start of its hour once, before any
    generator has run (the first call of common.generate starts from the
    world [generate] was entered with), and the ISO string of that one
    rounded moment is the timestamp of both the outer record's generation
    and the suppressed sub-record's generation. *)
Theorem timestamp_rounded_once (opts : Basal.options) (w : world) :
  Lodash.includes Basal.deliveryTypes (Basal.subType opts) = true ->
  let rounded :=
    Moment.startOf_hour utcOffset (moment (Basal.timestamp opts)) in
  let utc := toISOString rounded in
  let outer :=
    common_generate (effective_schema (Basal.subType opts)) utc
      (Basal.format opts) w in
  let nested := common_generate suppressed_schema utc VUndefined (snd outer) in
  (forall t, moment (Basal.timestamp opts) = Some t ->
     exists t', rounded = Some t'
                /\ t' <= t < t' + 3600000
                /\ (t' + utcOffset t * 60000) mod 3600000 = 0)
  /\ (moment (Basal.timestamp opts) = None -> rounded = None)
  /\ generate opts w
     = if Lodash.includes [VStr "temp"; VStr "suspend"] (Basal.subType opts)
       then (Returned
               (attach_suppressed (delete "previous" (fst outer)) (fst nested)),
             snd nested)
       else (Returned (Basal.drop_expectedDuration (delete "previous" (fst outer))),
             snd outer).
Proof.
  intros Hk. cbv zeta. split; [ | split].
  - intros t Ht. rewrite Ht. simpl. eexists. split; [reflexivity | ].
    apply startOf_hour_spec.
  - intros Ht. now rewrite Ht.
  - destruct (Lodash.includes [VStr "temp"; VStr "suspend"] (Basal.subType opts))
      eqn:E.
    + now apply generate_nested.
    + now apply generate_flat.
Qed.

(** C7: for every basal generation of a known delivery type (scheduled,
    temp or suspend), the returned instance has no [previous] key, though
    the schema fragment of each of the three declares a [previous]
    descriptor. *)
Theorem previous_never_returned (opts : Basal.options) (w : world) :
  Lodash.includes Basal.deliveryTypes (Basal.subType opts) = true ->
  (exists out w',
      generate opts w = (Returned out, w') /\ has "previous" out = false)
  /\ has "previous"
       (Basal.scheduled common_duration common_basalRateValue
          common_basalRateSummary common_SCHEDULE_NAMES) = true
  /\ has "previous"
       (Basal.temp common_duration common_basalRateValue
          common_basalRateSummary common_SCHEDULE_NAMES) = true
  /\ has "previous"
       (Basal.suspend common_duration common_basalRateValue
          common_basalRateSummary common_SCHEDULE_NAMES) = true.
Proof.
  intros Hk. split; [ | repeat split; reflexivity].
  destruct (Lodash.includes [VStr "temp"; VStr "suspend"] (Basal.subType opts))
    eqn:E.
  - rewrite (generate_nested opts w E). eexists. eexists.
    split; [reflexivity | ].
    destruct (attach_suppressed_props
                (delete "previous"
                   (fst (common_generate (effective_schema (Basal.subType opts))
                           (toISOString
                              (Moment.startOf_hour utcOffset
                                 (moment (Basal.timestamp opts))))
                           (Basal.format opts) w)))
                (fst (common_generate suppressed_schema
                        (toISOString
                           (Moment.startOf_hour utcOffset
                              (moment (Basal.timestamp opts))))
                        VUndefined
                        (snd (common_generate
                                (effective_schema (Basal.subType opts))
                                (toISOString
                                   (Moment.startOf_hour utcOffset
                                      (moment (Basal.timestamp opts))))
                                (Basal.format opts) w)))))
      as (_ & _ & _ & _ & _ & _ & Hp).
    rewrite Hp, has_delete. eval_eqb. reflexivity.
  - rewrite (generate_flat opts w Hk E). eexists. eexists.
    split; [reflexivity | ].
    rewrite drop_expectedDuration_previous, has_delete. eval_eqb. reflexivity.
Qed.

(** The effective schema of a known delivery type is the composition of
    the base fragment and the variant's fragment, in this order. *)
Lemma effective_schema_is_compose :
  effective_schema (VStr "scheduled")
  = Basal.compose
      [VObj Basal.base;
       VObj (Basal.scheduled common_duration common_basalRateValue
               common_basalRateSummary common_SCHEDULE_NAMES)]
  /\ effective_schema (VStr "temp")
     = Basal.compose
         [VObj Basal.base;
          VObj (Basal.temp common_duration common_basalRateValue
                  common_basalRateSummary common_SCHEDULE_NAMES)]
  /\ effective_schema (VStr "suspend")
     = Basal.compose
         [VObj Basal.base;
          VObj (Basal.suspend common_duration common_basalRateValue
                  common_basalRateSummary common_SCHEDULE_NAMES)].
Proof. repeat split; reflexivity. Qed.

End BasalGenerate.

(* ================================================================== *)
(** * The generator functions *)

Section Generators.
Import World JS.

Lemma integer_in_range (min max : Z) (s : stream) :
  min <= max ->
  min <= fst (Chance.integer min max s) <= max.
Proof.
  intros H. unfold Chance.integer. destruct (next s) as [d s']. simpl.
  pose proof (Z.mod_pos_bound (Z.of_N d) (max - min + 1) ltac:(lia)). lia.
Qed.

(** [percentInstance] returns one of the twentieths [0/20 .. 20/20]. *)
Lemma percentInstance_twentieth (w : world) :
  exists k, 0 <= k <= 20
            /\ fst (Basal.percentInstance w) = VNum (Checks.twentieth k).
Proof.
  unfold Basal.percentInstance, Chance.floating.
  pose proof (integer_in_range (0 * 10 ^ Z.of_nat Chance.default_fixed)
                (1 * 10 ^ Z.of_nat Chance.default_fixed) (chance_basal w)
                ltac:(vm_compute; discriminate)) as Hn.
  cbv zeta.
  destruct (Chance.integer _ _ (chance_basal w)) as [n s']. cbn [fst] in *.
  change (0 * 10 ^ Z.of_nat Chance.default_fixed) with 0 in Hn.
  change (1 * 10 ^ Z.of_nat Chance.default_fixed) with 10000 in Hn.
  pose proof (CheckFacts.forallb_upto _ _ _ CheckFacts.percent_draws_checked n
                ltac:(rewrite Z2Nat.id; lia)) as Hok.
  unfold Checks.percent_draw_ok, Checks.fixed_quotient in Hok.
  destruct (Number.mul _ (Number.of_Z 20)) as [[ | ] | | | [ | ] m e];
    try discriminate Hok.
  - exists 0. split; [lia | reflexivity].
  - apply andb_prop in Hok as [H0 H1].
    apply Z.leb_le in H0, H1.
    exists (Number.round_Z false m e). split; [lia | reflexivity].
Qed.

Lemma twentieth_facts (k : Z) :
  0 <= k <= 20 ->
  let p := Checks.twentieth k in
  Number.is_finite p = true
  /\ Number.leb Number.zero p = true
  /\ Number.leb p (Number.of_Z 1) = true
  /\ Number.leb (Number.decimal 0 1) p = true
  /\ Number.leb p (Number.decimal 100 1) = true
  /\ (Number.is_zero p = true -> p = Number.zero).
Proof.
  intros Hk.
  pose proof (CheckFacts.forallb_upto _ _ _ CheckFacts.twentieths_checked k
                ltac:(simpl; lia)) as Hok.
  unfold Checks.twentieth_ok in Hok. cbv zeta in *.
  repeat (apply andb_prop in Hok as [Hok ?]).
  repeat split; try assumption.
  intros Hz. rewrite Hz in *. simpl in *.
  now apply NumberFacts.same_bits_eq.
Qed.

(** The modelled [common.duration] returns an integer of [0, 86400000]. *)
Lemma duration_in_range (w : world) :
  exists d, 0 <= d <= 86400000
            /\ fst (Common.duration w) = VNum (Number.of_Z d).
Proof.
  unfold Common.duration.
  pose proof (integer_in_range 0 86400000 (chance_common w) ltac:(lia)) as Hd.
  destruct (Chance.integer 0 86400000 (chance_common w)) as [d s].
  exists d. split; [exact Hd | reflexivity].
Qed.

(** The value function of bloodKetone returns one of the tenths
    [0/10 .. 50/10], a number of [0, 5]. *)
Lemma value_instance_tenth (w : world) :
  exists n, 0 <= n <= 50
            /\ fst (BloodKetone.value_instance w) = VNum (Number.decimal n 1)
            /\ Number.leb Number.zero (Number.decimal n 1) = true
            /\ Number.leb (Number.decimal n 1) (Number.of_Z 5) = true.
Proof.
  unfold BloodKetone.value_instance, Chance.floating.
  pose proof (integer_in_range (0 * 10 ^ Z.of_nat 1) (5 * 10 ^ Z.of_nat 1)
                (chance_bloodKetone w) ltac:(vm_compute; discriminate)) as Hn.
  cbv zeta.
  destruct (Chance.integer _ _ (chance_bloodKetone w)) as [n s'].
  cbn [fst] in *.
  change (0 * 10 ^ Z.of_nat 1) with 0 in Hn.
  change (5 * 10 ^ Z.of_nat 1) with 50 in Hn.
  pose proof (CheckFacts.forallb_upto _ _ _ CheckFacts.tenths_checked n
                ltac:(simpl; lia)) as Hok.
  unfold Checks.tenth_ok, Checks.fixed_quotient in Hok. cbv zeta in Hok.
  repeat (apply andb_prop in Hok as [Hok ?]).
  exists n. repeat split; try lia; assumption.
Qed.

End Generators.

(* ================================================================== *)
(** * basal.js: generate, on the modelled common.generate *)

Section BasalOnCommon.
Import World JS ObjectFacts LodashFacts CommonFacts.

Variable ToString_other : value -> string.
Variable StringToNumber : string -> number.
Variable moment : value -> Moment.moment.
Variable utcOffset : Z -> Z.
Variable toISOString : Moment.moment -> value.
Variable envelope :
  value -> value -> world -> list (Common.envelope_field * value) * world.
Variable common_duration : value.
Variable common_basalRateValue : value.
Variable common_basalRateSummary : value.
Variable common_SCHEDULE_NAMES : value.

Local Abbreviation generate :=
  (Basal.generate ToString_other StringToNumber moment utcOffset toISOString
     (Common.generate envelope) common_duration common_basalRateValue
     common_basalRateSummary common_SCHEDULE_NAMES).
Local Abbreviation effective_schema :=
  (Basal.effective_schema ToString_other common_duration common_basalRateValue
     common_basalRateSummary common_SCHEDULE_NAMES).
Local Abbreviation suppressed_schema :=
  (Basal.suppressed_schema common_duration common_basalRateValue
     common_basalRateSummary common_SCHEDULE_NAMES).
Local Abbreviation scheduled :=
  (Basal.scheduled common_duration common_basalRateValue
     common_basalRateSummary common_SCHEDULE_NAMES).
Local Abbreviation suspend :=
  (Basal.suspend common_duration common_basalRateValue
     common_basalRateSummary common_SCHEDULE_NAMES).
Local Abbreviation attach_suppressed :=
  (Basal.attach_suppressed ToString_other StringToNumber).
Local Abbreviation ToNumber := (JS.ToNumber ToString_other StringToNumber).
Local Abbreviation suppressed_keys :=
  ["type"; "deliveryType"; "scheduleName"; "rate"].

(** The record that the suppressed sub-record is picked from. *)
Lemma suppressed_source (utc : value) (w : world) :
  let s := fst (Common.generate envelope suppressed_schema utc VUndefined w) in
  prop s "type" = VStr "basal"
  /\ prop s "deliveryType" = VStr "scheduled"
  /\ has "type" s = true
  /\ has "deliveryType" s = true
  /\ has "scheduleName" s = true
  /\ has "rate" s = true.
Proof.
  cbv zeta. repeat split.
  - now apply generate_prop_literal with
      (d := Basal.descriptor (VStr "basal")
              [Basal.required (VBool true) (VBool true)]).
  - now apply generate_prop_literal with
      (d := Basal.descriptor (VStr "scheduled")
              [Basal.required (VBool true) (VBool true)]).
  - now rewrite generate_has.
  - now rewrite generate_has.
  - now rewrite generate_has.
  - now rewrite generate_has.
Qed.

(** Picking the four suppressed fields from a record that has them. *)
Lemma pick_suppressed (s : object) :
  has "type" s = true -> has "deliveryType" s = true ->
  has "scheduleName" s = true -> has "rate" s = true ->
  keys (Lodash.pick s suppressed_keys) = suppressed_keys
  /\ (forall k, prop (Lodash.pick s suppressed_keys) k
                = if existsb (String.eqb k) suppressed_keys
                  then prop s k else VUndefined)
  /\ (forall k, has k (Lodash.pick s suppressed_keys)
                = existsb (String.eqb k) suppressed_keys && has k s).
Proof.
  unfold has. intros H1 H2 H3 H4. split; [ | split].
  - unfold Lodash.pick. cbn [fold_left].
    destruct (get "type" s); [ | discriminate].
    destruct (get "deliveryType" s); [ | discriminate].
    destruct (get "scheduleName" s); [ | discriminate].
    destruct (get "rate" s); [ | discriminate].
    reflexivity.
  - intros k. unfold prop. rewrite get_pick.
    now destruct (existsb (String.eqb k) suppressed_keys).
  - intros k. rewrite get_pick.
    now destruct (existsb (String.eqb k) suppressed_keys).
Qed.

(** A temp basal before the post-processing of lines 385-395. *)
Lemma temp_outer (utc format : value) (w : world) :
  let b := fst (Common.generate envelope (effective_schema (VStr "temp"))
                  utc format w) in
  prop b "deliveryType" = VStr "temp"
  /\ prop b "rate" = VNum Number.zero
  /\ (exists k, 0 <= k <= 20 /\ prop b "percent" = VNum (Checks.twentieth k))
  /\ (exists w',
        prop b "duration"
        = fst (Common.resolve (VObj [("instance", common_duration)]) w')).
Proof.
  cbv zeta. repeat split.
  - now apply generate_prop_literal with
      (d := Basal.descriptor (VStr "temp")
              [Basal.required (VBool true) (VBool true)]).
  - now apply generate_prop_literal with
      (d := Basal.descriptor (Basal.num 0)
              [Basal.required (VBool false) (VBool true);
               Basal.range (VStr "0.0") (VStr "20.0")]).
  - destruct (generate_prop_function envelope (effective_schema (VStr "temp"))
                utc format w "percent"
                (Basal.descriptor (VFun "percentInstance" Basal.percentInstance)
                   Basal.percentSummary)
                "percentInstance" Basal.percentInstance
                eq_refl eq_refl eq_refl) as [w' Hp].
    destruct (percentInstance_twentieth w') as (k & Hk & Hpk).
    exists k. split; [exact Hk | ]. now rewrite Hp.
  - unfold prop at 1. rewrite generate_get by reflexivity.
    destruct (resolve_all_get (effective_schema (VStr "temp")) "duration"
                (Basal.descriptor common_duration
                   [Basal.required (VBool true) (VBool true);
                    Basal.range (Basal.num 0) (Basal.num 86400000)])
                w eq_refl) as [w' ->].
    exists w'. reflexivity.
Qed.

(** The rate of a temp basal after post-processing, for the percentage
    [k / 20] and a rate that was generated as the literal 0. *)
Lemma temp_rate (b s : object) (k : Z) :
  0 <= k <= 20 ->
  prop b "percent" = VNum (Checks.twentieth k) ->
  prop b "rate" = VNum Number.zero ->
  has "type" s = true -> has "deliveryType" s = true ->
  has "scheduleName" s = true -> has "rate" s = true ->
  let out := attach_suppressed b s in
  let sr := ToNumber (member (prop out "suppressed") "rate") in
  (Number.is_finite sr = true ->
   exists r, prop out "rate" = VNum r
             /\ Number.eqb r (Number.mul (Checks.twentieth k) sr) = true)
  /\ (Number.is_zero (Checks.twentieth k) = true ->
      prop out "rate" = VNum Number.zero)
  /\ (Number.is_zero (Checks.twentieth k) = false ->
      prop out "rate" = VNum (Number.mul (Checks.twentieth k) sr)).
Proof.
  intros Hk Hp Hrate H1 H2 H3 H4. cbv zeta.
  destruct (attach_suppressed_props ToString_other StringToNumber b s)
    as (Hs & _ & Hr & _).
  destruct (pick_suppressed s H1 H2 H3 H4) as (_ & Hpick & _).
  rewrite Hs, Hr, Hp, Hrate. cbn [member]. rewrite Hpick.
  change (existsb (String.eqb "rate") suppressed_keys) with true. cbv iota.
  destruct (twentieth_facts k Hk) as (Hfin & _ & _ & _ & _ & Hzero).
  cbn [truthy].
  destruct (Number.is_zero (Checks.twentieth k)) eqn:Hz.
  - rewrite (Hzero eq_refl). cbn [Number.is_zero orb negb].
    split; [ | split; [reflexivity | discriminate]].
    intros Hsr. exists Number.zero. split; [reflexivity | ].
    now apply NumberFacts.mul_zero_finite.
  - assert (Hnan : Number.is_nan (Checks.twentieth k) = false)
      by (destruct (Checks.twentieth k); simpl in *; congruence).
    rewrite Hnan. cbn [orb negb].
    split; [ | split; [discriminate | reflexivity]].
    intros Hsr. eexists. split; [reflexivity | ].
    now apply NumberFacts.mul_finite_eqb.
Qed.

(** [generate] for a temp basal, with what the theorems below need. *)
Lemma temp_generate (ts fmt : value) (w : world) :
  exists b s w',
    generate {| Basal.subType := VStr "temp";
                Basal.timestamp := ts;
                Basal.format := fmt |} w
    = (Returned (attach_suppressed (delete "previous" b) s), w')
    /\ prop (delete "previous" b) "deliveryType" = VStr "temp"
    /\ prop (delete "previous" b) "rate" = VNum Number.zero
    /\ (exists k, 0 <= k <= 20
                  /\ prop (delete "previous" b) "percent"
                     = VNum (Checks.twentieth k))
    /\ (exists wd,
          prop (delete "previous" b) "duration"
          = fst (Common.resolve (VObj [("instance", common_duration)]) wd))
    /\ has "type" s = true /\ has "deliveryType" s = true
    /\ has "scheduleName" s = true /\ has "rate" s = true.
Proof.
  pose proof (generate_nested ToString_other StringToNumber moment utcOffset
                toISOString (Common.generate envelope) common_duration
                common_basalRateValue common_basalRateSummary
                common_SCHEDULE_NAMES
                {| Basal.subType := VStr "temp";
                   Basal.timestamp := ts;
                   Basal.format := fmt |} w eq_refl) as Hg.
  cbv zeta in Hg. cbn [Basal.subType Basal.timestamp Basal.format] in Hg.
  eexists. eexists. eexists. split; [exact Hg | ].
  rewrite !prop_delete. eval_eqb.
  match goal with
  | |- context [Common.generate envelope (effective_schema (VStr "temp")) ?u ?f ?w0] =>
      destruct (temp_outer u f w0) as (Hd & Hr & Hp & Hdur)
  end.
  match goal with
  | |- context [Common.generate envelope suppressed_schema ?u VUndefined ?w0] =>
      destruct (suppressed_source u w0) as (_ & _ & H1 & H2 & H3 & H4)
  end.
  repeat split; assumption.
Qed.

(** C1: for every generation of a temp basal, the returned [rate] equals
    [percent * suppressed.rate], the product of the instance's own
    [percent] and the rate of its suppressed sub-record, for whatever
    percentage was generated, zero included: a percentage other than zero
    makes the rate that very product, and a zero percentage leaves the rate
    at the 0 it was generated as, which equals the product whenever the
    suppressed rate is a finite number. *)
Theorem temp_rate_is_percent_of_suppressed_rate (ts fmt : value) (w : world) :
  exists out w',
    generate {| Basal.subType := VStr "temp";
                Basal.timestamp := ts;
                Basal.format := fmt |} w = (Returned out, w')
    /\ exists p,
         prop out "percent" = VNum p
         /\ (Number.is_finite
               (ToNumber (member (prop out "suppressed") "rate")) = true ->
             exists r,
               prop out "rate" = VNum r
               /\ Number.eqb r
                    (Number.mul p
                       (ToNumber (member (prop out "suppressed") "rate")))
                  = true)
         /\ (Number.is_zero p = true -> prop out "rate" = VNum Number.zero)
         /\ (Number.is_zero p = false ->
             prop out "rate"
             = VNum (Number.mul p
                       (ToNumber (member (prop out "suppressed") "rate")))).
Proof.
  destruct (temp_generate ts fmt w)
    as (b & s & w' & Hg & _ & Hr & (k & Hk & Hp) & _ & H1 & H2 & H3 & H4).
  exists (attach_suppressed (delete "previous" b) s), w'.
  split; [exact Hg | ].
  exists (Checks.twentieth k).
  destruct (attach_suppressed_props ToString_other StringToNumber
              (delete "previous" b) s) as (_ & Hp' & _).
  split; [now rewrite Hp' | ].
  exact (temp_rate (delete "previous" b) s k Hk Hp Hr H1 H2 H3 H4).
Qed.

(** C6: for every generation of a scheduled basal, the variant without
    the expected-duration field, the returned instance has no
    [expectedDuration] key, though the scheduled schema fragment carries
    an [expectedDuration] descriptor. *)
Theorem scheduled_has_no_expectedDuration (ts fmt : value) (w : world) :
  (exists out w',
      generate {| Basal.subType := VStr "scheduled";
                  Basal.timestamp := ts;
                  Basal.format := fmt |} w = (Returned out, w')
      /\ has "expectedDuration" out = false)
  /\ has "expectedDuration" scheduled = true.
Proof.
  split; [ | reflexivity].
  pose proof (generate_flat ToString_other StringToNumber moment utcOffset
                toISOString (Common.generate envelope) common_duration
                common_basalRateValue common_basalRateSummary
                common_SCHEDULE_NAMES
                {| Basal.subType := VStr "scheduled";
                   Basal.timestamp := ts;
                   Basal.format := fmt |} w eq_refl eq_refl) as Hg.
  cbv zeta in Hg. cbn [Basal.subType Basal.timestamp Basal.format] in Hg.
  eexists. eexists. split; [exact Hg | ].
  unfold Basal.drop_expectedDuration.
  rewrite prop_delete. eval_eqb.
  rewrite generate_prop_literal with
    (d := Basal.descriptor (Basal.num 0)
            [Basal.required (VBool false) (VBool false);
             Basal.range (VStr ">= `duration`") (Basal.num 432000000)])
    by reflexivity.
  cbn [member prop get String.eqb Ascii.eqb Bool.eqb Basal.descriptor
         Basal.num not_nullish].
  rewrite has_delete. eval_eqb. reflexivity.
Qed.

(** C9: for every generation of a suspend basal, the attached
    [suppressed] sub-record is picked from a record generated from the
    scheduled variant's schema: its [deliveryType] is 'scheduled' and it
    has neither a [percent] nor a [suppressed] key, though the field list
    documented for the suspend variant's [suppressed] names both. *)
Theorem suspend_suppressed_is_scheduled (ts fmt : value) (w : world) :
  (exists out w' supp w1,
      generate {| Basal.subType := VStr "suspend";
                  Basal.timestamp := ts;
                  Basal.format := fmt |} w = (Returned out, w')
      /\ prop out "suppressed" = VObj supp
      /\ supp
         = Lodash.pick
             (fst (Common.generate envelope
                     (Basal.compose [VObj Basal.base; VObj scheduled])
                     (toISOString (Moment.startOf_hour utcOffset (moment ts)))
                     VUndefined w1))
             suppressed_keys
      /\ keys supp = suppressed_keys
      /\ prop supp "deliveryType" = VStr "scheduled"
      /\ has "percent" supp = false
      /\ has "suppressed" supp = false)
  /\ (exists documented,
        member (member (prop suspend "suppressed") "summary") "keys"
        = VObj documented
        /\ has "percent" documented = true
        /\ has "suppressed" documented = true).
Proof.
  split; [ | eexists; repeat split; reflexivity].
  pose proof (generate_nested ToString_other StringToNumber moment utcOffset
                toISOString (Common.generate envelope) common_duration
                common_basalRateValue common_basalRateSummary
                common_SCHEDULE_NAMES
                {| Basal.subType := VStr "suspend";
                   Basal.timestamp := ts;
                   Basal.format := fmt |} w eq_refl) as Hg.
  cbv zeta in Hg. cbn [Basal.subType Basal.timestamp Basal.format] in Hg.
  eexists. eexists. eexists. eexists. split; [exact Hg | ].
  match goal with
  | |- context [attach_suppressed ?b0 ?s0] =>
      destruct (attach_suppressed_props ToString_other StringToNumber b0 s0)
        as (Hs & _)
  end.
  split; [exact Hs | ]. split; [reflexivity | ].
  match goal with
  | |- context [Common.generate envelope _ ?u VUndefined ?w0] =>
      destruct (suppressed_source u w0) as (_ & Hd & H1 & H2 & H3 & H4)
  end.
  match goal with
  | |- context [Lodash.pick ?s0 _] =>
      destruct (pick_suppressed s0 H1 H2 H3 H4) as (Hkeys & Hprop & Hhas)
  end.
  split; [exact Hkeys | ].
  rewrite Hprop, !Hhas.
  change (existsb (String.eqb "deliveryType") suppressed_keys) with true.
  change (existsb (String.eqb "percent") suppressed_keys) with false.
  change (existsb (String.eqb "suppressed") suppressed_keys) with false.
  repeat split. exact Hd.
Qed.

End BasalOnCommon.

(* ================================================================== *)
(** * basal.js: the example call of the documentation *)

Section BasalExample.
Import World JS ObjectFacts LodashFacts CommonFacts.

Variable ToString_other : value -> string.
Variable StringToNumber : string -> number.
Variable moment : value -> Moment.moment.
Variable utcOffset : Z -> Z.
Variable toISOString : Moment.moment -> value.
Variable envelope :
  value -> value -> world -> list (Common.envelope_field * value) * world.
Variable common_basalRateValue : value.
Variable common_basalRateSummary : value.
Variable common_SCHEDULE_NAMES : value.

Local Abbreviation generate :=
  (Basal.generate ToString_other StringToNumber moment utcOffset toISOString
     (Common.generate envelope) (VFun "common.duration" Common.duration)
     common_basalRateValue common_basalRateSummary common_SCHEDULE_NAMES).
Local Abbreviation ToNumber := (JS.ToNumber ToString_other StringToNumber).

Lemma prop_has (o : object) (k : string) (x : number) :
  prop o k = VNum x -> has k o = true.
Proof.
  unfold prop, has. now destruct (get k o).
Qed.

(** C2: [generate({subType: 'temp', timestamp: '2016-05-04T08:18:06.425Z'})]
    returns an instance with [deliveryType] 'temp', a [duration] in
    [0, 86400000], a nested [suppressed] object whose keys are type,
    deliveryType, scheduleName and rate, an [expectedDuration] of
    [1.2 * duration], a generated [percent], and a [rate] equal to
    [percent * suppressed.rate] (the suppressed rate taken to be a finite
    number). *)
Theorem temp_example_instance (w : world) :
  exists out w',
    generate {| Basal.subType := VStr "temp";
                Basal.timestamp := VStr "2016-05-04T08:18:06.425Z";
                Basal.format := VUndefined |} w = (Returned out, w')
    /\ prop out "deliveryType" = VStr "temp"
    /\ (exists d,
          0 <= d <= 86400000
          /\ prop out "duration" = VNum (Number.of_Z d)
          /\ prop out "expectedDuration"
             = VNum (Number.mul (Number.decimal 12 1) (Number.of_Z d)))
    /\ (exists supp,
          prop out "suppressed" = VObj supp
          /\ keys supp = ["type"; "deliveryType"; "scheduleName"; "rate"])
    /\ has "percent" out = true
    /\ exists p,
         prop out "percent" = VNum p
         /\ (Number.is_finite
               (ToNumber (member (prop out "suppressed") "rate")) = true ->
             exists r,
               prop out "rate" = VNum r
               /\ Number.eqb r
                    (Number.mul p
                       (ToNumber (member (prop out "suppressed") "rate")))
                  = true).
Proof.
  destruct (temp_generate ToString_other StringToNumber moment utcOffset
              toISOString envelope (VFun "common.duration" Common.duration)
              common_basalRateValue common_basalRateSummary
              common_SCHEDULE_NAMES
              (VStr "2016-05-04T08:18:06.425Z") VUndefined w)
    as (b & s & w' & Hg & Hdt & Hr & (k & Hk & Hp) & (wd & Hdur)
        & H1 & H2 & H3 & H4).
  exists (Basal.attach_suppressed ToString_other StringToNumber
            (delete "previous" b) s), w'.
  split; [exact Hg | ].
  destruct (attach_suppressed_props ToString_other StringToNumber
              (delete "previous" b) s)
    as (Hs & Hp' & _ & Hd' & He' & Hdt' & _).
  destruct (pick_suppressed s H1 H2 H3 H4) as (Hkeys & _).
  destruct (duration_in_range wd) as (d & Hd & Hdv).
  change (fst (Common.resolve
                 (VObj [("instance", VFun "common.duration" Common.duration)])
                 wd))
    with (fst (Common.duration wd)) in Hdur.
  rewrite Hdv in Hdur.
  split; [now rewrite Hdt' | ].
  split. { exists d. rewrite Hd', He', Hdur. repeat split; lia. }
  split. { eexists. split; [exact Hs | exact Hkeys]. }
  split. { apply prop_has with (x := Checks.twentieth k). now rewrite Hp'. }
  exists (Checks.twentieth k). split; [now rewrite Hp' | ].
  exact (proj1 (temp_rate ToString_other StringToNumber
                  (delete "previous" b) s k Hk Hp Hr H1 H2 H3 H4)).
Qed.

End BasalExample.

(* ================================================================== *)
(** * The percentage generator and bloodKetone.js *)

Section Ranges.
Import World JS CommonFacts.

(** C8: every value of the [percent] field's generator is a multiple of
    0.05, that is [k / 20] for an integer [k] of [0..20]; it lies in
    [0, 1], and so within the range [0.0, 10.0] that [percentSummary]
    declares. *)
Theorem percent_is_a_twentieth (w : world) :
  exists p w' k,
    Basal.percentInstance w = (VNum p, w')
    /\ 0 <= k <= 20
    /\ p = Number.div (Number.of_Z k) (Number.of_Z 20)
    /\ Number.leb (Number.of_Z 0) p = true
    /\ Number.leb p (Number.of_Z 1) = true
    /\ prop Basal.percentSummary "range"
       = VObj [("min", VStr "0.0"); ("max", VStr "10.0")]
    /\ Number.leb (Number.decimal 0 1) p = true
    /\ Number.leb p (Number.decimal 100 1) = true.
Proof.
  destruct (percentInstance_twentieth w) as (k & Hk & Hp).
  destruct (Basal.percentInstance w) as [v w']. simpl in Hp. subst v.
  destruct (twentieth_facts k Hk) as (_ & H0 & H1 & H2 & H3 & _).
  exists (Checks.twentieth k), w', k. repeat split; try assumption; lia.
Qed.

(** C10: every instance that bloodKetone [generate] returns has [type]
    'bloodKetone', [units] 'mmol/L', and a [value] that is a number of
    [0, 5] with at most one decimal digit, that is [n / 10] for an integer
    [n] of [0..50]. *)
Theorem bloodKetone_instance
  (envelope :
     value -> value -> world -> list (Common.envelope_field * value) * world)
  (utc format : value) (w : world) :
  exists bk w',
    BloodKetone.generate (Common.generate envelope) utc format w = (bk, w')
    /\ prop bk "type" = VStr "bloodKetone"
    /\ prop bk "units" = VStr "mmol/L"
    /\ exists n,
         0 <= n <= 50
         /\ prop bk "value" = VNum (Number.decimal n 1)
         /\ Number.leb (Number.of_Z 0) (Number.decimal n 1) = true
         /\ Number.leb (Number.decimal n 1) (Number.of_Z 5) = true.
Proof.
  unfold BloodKetone.generate.
  pose proof (generate_prop_literal envelope BloodKetone.schema utc format w
                "type" (VObj [("instance", VStr "bloodKetone")])
                eq_refl eq_refl eq_refl) as Ht.
  pose proof (generate_prop_literal envelope BloodKetone.schema utc format w
                "units" (VObj [("instance", VStr "mmol/L")])
                eq_refl eq_refl eq_refl) as Hu.
  destruct (generate_prop_function envelope BloodKetone.schema utc format w
              "value"
              (VObj [("instance",
                      VFun "schema.value.instance" BloodKetone.value_instance)])
              "schema.value.instance" BloodKetone.value_instance
              eq_refl eq_refl eq_refl) as [wv Hv].
  destruct (Common.generate envelope BloodKetone.schema utc format w)
    as [bk w'].
  cbn [fst] in *.
  destruct (value_instance_tenth wv) as (n & Hn & Hx & H0 & H5).
  exists bk, w'. split; [reflexivity | ].
  split; [exact Ht | ]. split; [exact Hu | ].
  exists n. rewrite Hv, Hx. repeat split; try assumption; lia.
Qed.

End Ranges.

(* ================================================================== *)
(** * The theorems at the sample environment *)

Section Witnesses.
Import World JS.

Lemma temp_rate_is_percent_of_suppressed_rate_witness :
  exists out w',
    Sample.basal_generate Sample.temp_example Sample.start = (Returned out, w')
    /\ exists p r,
         prop out "percent" = VNum p
         /\ Number.is_finite
              (ToNumber Sample.ToString_other Sample.StringToNumber
                 (member (prop out "suppressed") "rate")) = true
         /\ prop out "rate" = VNum r
         /\ Number.eqb r
              (Number.mul p
                 (ToNumber Sample.ToString_other Sample.StringToNumber
                    (member (prop out "suppressed") "rate"))) = true.
Proof.
  destruct (temp_rate_is_percent_of_suppressed_rate
              Sample.ToString_other Sample.StringToNumber Sample.moment
              Sample.utcOffset Sample.toISOString Sample.envelope
              (VFun "common.duration" Common.duration)
              (VFun "common.basalRateValue" Sample.basalRateValue)
              Sample.basalRateSummary Sample.SCHEDULE_NAMES
              (VStr "2016-05-04T08:18:06.425Z") VUndefined Sample.start)
    as (out & w' & Hg & p & Hp & Hrate & _ & _).
  assert (Hfin : Number.is_finite
                   (ToNumber Sample.ToString_other Sample.StringToNumber
                      (member (prop out "suppressed") "rate")) = true).
  { assert (Ho : fst (Sample.basal_generate Sample.temp_example Sample.start)
                 = Returned out)
      by (unfold Sample.basal_generate, Sample.temp_example; now rewrite Hg).
    vm_compute in Ho. injection Ho as <-. vm_compute. reflexivity. }
  destruct (Hrate Hfin) as (r & Hr & He).
  exists out, w'. split; [exact Hg | ].
  exists p, r. repeat split; assumption.
Defined.

Lemma temp_example_instance_witness :
  exists out w',
    Sample.basal_generate Sample.temp_example Sample.start = (Returned out, w')
    /\ prop out "deliveryType" = VStr "temp"
    /\ (exists d,
          0 <= d <= 86400000
          /\ prop out "duration" = VNum (Number.of_Z d)
          /\ prop out "expectedDuration"
             = VNum (Number.mul (Number.decimal 12 1) (Number.of_Z d)))
    /\ (exists supp,
          prop out "suppressed" = VObj supp
          /\ keys supp = ["type"; "deliveryType"; "scheduleName"; "rate"])
    /\ has "percent" out = true
    /\ exists p r,
         prop out "percent" = VNum p
         /\ Number.is_finite
              (ToNumber Sample.ToString_other Sample.StringToNumber
                 (member (prop out "suppressed") "rate")) = true
         /\ prop out "rate" = VNum r
         /\ Number.eqb r
              (Number.mul p
                 (ToNumber Sample.ToString_other Sample.StringToNumber
                    (member (prop out "suppressed") "rate"))) = true.
Proof.
  destruct (temp_example_instance
              Sample.ToString_other Sample.StringToNumber Sample.moment
              Sample.utcOffset Sample.toISOString Sample.envelope
              (VFun "common.basalRateValue" Sample.basalRateValue)
              Sample.basalRateSummary Sample.SCHEDULE_NAMES Sample.start)
    as (out & w' & Hg & Hdt & Hd & Hs & Hhas & p & Hp & Hrate).
  assert (Hfin : Number.is_finite
                   (ToNumber Sample.ToString_other Sample.StringToNumber
                      (member (prop out "suppressed") "rate")) = true).
  { assert (Ho : fst (Sample.basal_generate Sample.temp_example Sample.start)
                 = Returned out)
      by (unfold Sample.basal_generate, Sample.temp_example; now rewrite Hg).
    vm_compute in Ho. injection Ho as <-. vm_compute. reflexivity. }
  destruct (Hrate Hfin) as (r & Hr & He).
  exists out, w'. repeat (split; [assumption | ]).
  exists p, r. repeat split; assumption.
Defined.

Lemma unknown_subType_exits_witness :
  Lodash.includes Basal.deliveryTypes (Basal.subType Sample.bolus_example)
  = false
  /\ Sample.basal_generate Sample.bolus_example Sample.start
     = (Exited 0,
        console_error
          "Basal subType (= deliveryType) must be one of: scheduled, temp, suspend!"
          Sample.start).
Proof.
  split; [reflexivity | ].
  exact (proj1 (unknown_subType_exits
                  Sample.ToString_other Sample.StringToNumber Sample.moment
                  Sample.utcOffset Sample.toISOString
                  (Common.generate Sample.envelope)
                  (VFun "common.duration" Common.duration)
                  (VFun "common.basalRateValue" Sample.basalRateValue)
                  Sample.basalRateSummary Sample.SCHEDULE_NAMES
                  Sample.bolus_example Sample.start eq_refl)).
Defined.

Lemma timestamp_rounded_once_witness :
  Lodash.includes Basal.deliveryTypes (Basal.subType Sample.temp_example) = true
  /\ Moment.startOf_hour Sample.utcOffset
       (Sample.moment (Basal.timestamp Sample.temp_example))
     = Some 1462348800000
  /\ exists outer nested,
       outer
       = Common.generate Sample.envelope
           (Basal.effective_schema Sample.ToString_other
              (VFun "common.duration" Common.duration)
              (VFun "common.basalRateValue" Sample.basalRateValue)
              Sample.basalRateSummary Sample.SCHEDULE_NAMES (VStr "temp"))
           (VStr "2016-05-04T08:00:00.000Z") VUndefined Sample.start
       /\ nested
          = Common.generate Sample.envelope
              (Basal.suppressed_schema
                 (VFun "common.duration" Common.duration)
                 (VFun "common.basalRateValue" Sample.basalRateValue)
                 Sample.basalRateSummary Sample.SCHEDULE_NAMES)
              (VStr "2016-05-04T08:00:00.000Z") VUndefined (snd outer)
       /\ Sample.basal_generate Sample.temp_example Sample.start
          = (Returned
               (Basal.attach_suppressed Sample.ToString_other
                  Sample.StringToNumber
                  (delete "previous" (fst outer)) (fst nested)),
             snd nested).
Proof.
  split; [reflexivity | ]. split; [reflexivity | ].
  eexists. eexists. split; [reflexivity | ]. split; [reflexivity | ].
  exact (proj2 (proj2 (timestamp_rounded_once
                         Sample.ToString_other Sample.StringToNumber
                         Sample.moment Sample.utcOffset Sample.toISOString
                         (Common.generate Sample.envelope)
                         (VFun "common.duration" Common.duration)
                         (VFun "common.basalRateValue" Sample.basalRateValue)
                         Sample.basalRateSummary Sample.SCHEDULE_NAMES
                         Sample.temp_example Sample.start eq_refl))).
Defined.

Lemma previous_never_returned_witness :
  Lodash.includes Basal.deliveryTypes (Basal.subType Sample.temp_example) = true
  /\ exists out w',
       Sample.basal_generate Sample.temp_example Sample.start
       = (Returned out, w')
       /\ has "previous" out = false.
Proof.
  split; [reflexivity | ].
  exact (proj1 (previous_never_returned
                  Sample.ToString_other Sample.StringToNumber Sample.moment
                  Sample.utcOffset Sample.toISOString
                  (Common.generate Sample.envelope)
                  (VFun "common.duration" Common.duration)
                  (VFun "common.basalRateValue" Sample.basalRateValue)
                  Sample.basalRateSummary Sample.SCHEDULE_NAMES
                  Sample.temp_example Sample.start eq_refl)).
Defined.

End Witnesses.

(* ================================================================== *)
(** * Composition of fragments (lines 381 and 388) *)

Module ComposeFacts.
Import JS Lodash ObjectFacts LodashFacts Fragments.
Local Open Scope list_scope.

Local Abbreviation assign_props :=
  (fold_left (fun (t' : object) (kv : string * value) => set (fst kv) (snd kv) t')).

Lemma has_true_iff (k : string) (o : object) :
  has k o = true <-> In k (keys o).
Proof.
  destruct (has k o) eqn:E.
  - split; [intros _ | reflexivity].
    destruct (in_dec string_dec k (keys o)) as [H | H]; [exact H | ].
    apply has_false_iff in H. congruence.
  - split; [discriminate | ]. intros H. apply has_false_iff in E. contradiction.
Qed.

Lemma NoDup_keys_assign_props (l : object) :
  forall t, NoDup (keys t) -> NoDup (keys (assign_props l t)).
Proof.
  induction l as [ | [k0 v0] l IH]; simpl; intros t H.
  - exact H.
  - apply IH. now apply NoDup_keys_set.
Qed.

Lemma NoDup_keys_assign (sources : list value) :
  forall t, NoDup (keys t) -> NoDup (keys (assign t sources)).
Proof.
  unfold assign. induction sources as [ | s sources IH]; simpl; intros t H.
  - exact H.
  - apply IH. now apply NoDup_keys_assign_props.
Qed.

Lemma get_assign_props (k : string) (l : object) :
  forall t, NoDup (keys l) ->
  get k (assign_props l t)
  = match get k l with Some v => Some v | None => get k t end.
Proof.
  induction l as [ | [k0 v0] l IH]; simpl; intros t H.
  - reflexivity.
  - inversion H as [ | ? ? Hn Hd]; subst. rewrite (IH _ Hd), get_set.
    destruct (String.eqb_spec k0 k) as [-> | Hk]; [ | reflexivity].
    apply get_None_iff in Hn. now rewrite Hn.
Qed.

Lemma has_assign_props (k : string) (l : object) :
  forall t, has k (assign_props l t) = has k l || has k t.
Proof.
  induction l as [ | [k0 v0] l IH]; intros t.
  - reflexivity.
  - simpl fold_left. rewrite IH, has_set. unfold has at 3. simpl get.
    destruct (String.eqb k0 k).
    + now rewrite orb_true_r.
    + reflexivity.
Qed.

Lemma get_assign_objects (k : string) (fragments : list object) :
  forallb (fun f => nodup_keys (keys f)) fragments = true ->
  forall t,
    get k (assign t (map VObj fragments))
    = match lookup_last k fragments with
      | Some v => Some v
      | None => get k t
      end.
Proof.
  unfold assign.
  induction fragments as [ | f fragments IH]; simpl; intros H t.
  - reflexivity.
  - apply andb_prop in H as [Hf H]. rewrite (IH H).
    destruct (lookup_last k fragments); [reflexivity | ].
    apply get_assign_props. now apply nodup_keys_iff.
Qed.

Lemma has_assign_objects (k : string) (fragments : list object) :
  forall t,
    has k (assign t (map VObj fragments)) = existsb (has k) fragments || has k t.
Proof.
  unfold assign.
  induction fragments as [ | f fragments IH]; simpl; intros t.
  - reflexivity.
  - rewrite IH, has_assign_props.
    now destruct (has k f), (existsb (has k) fragments), (has k t).
Qed.

Lemma keys_set_new (k : string) (v : value) (o : object) :
  ~ In k (keys o) -> set k v o = o ++ [(k, v)].
Proof.
  induction o as [ | [k0 v0] o IH]; simpl; intros H.
  - reflexivity.
  - destruct (String.eqb_spec k0 k) as [-> | Hk]; [exfalso; tauto | ].
    rewrite IH by tauto. reflexivity.
Qed.

Lemma keys_set_old (k : string) (v : value) (o : object) :
  In k (keys o) -> keys (set k v o) = keys o.
Proof.
  induction o as [ | [k0 v0] o IH]; simpl; intros H.
  - contradiction.
  - destruct (String.eqb_spec k0 k) as [-> | Hk]; [reflexivity | ].
    simpl. rewrite IH; [reflexivity | ]. destruct H; congruence.
Qed.

Lemma assign_props_fresh (l : object) :
  forall t, NoDup (keys (t ++ l)) -> assign_props l t = t ++ l.
Proof.
  induction l as [ | [k0 v0] l IH]; simpl; intros t H.
  - now rewrite app_nil_r.
  - assert (Hk : ~ In k0 (keys t)).
    { unfold keys in H. rewrite map_app in H. simpl in H.
      apply NoDup_remove_2 in H. intros Hin. apply H, in_or_app. now left. }
    rewrite keys_set_new by exact Hk.
    rewrite IH; rewrite <- app_assoc; [reflexivity | exact H].
Qed.

Lemma keys_assign_props_present (l : object) :
  forall t, (forall k, In k (keys l) -> In k (keys t)) ->
  keys (assign_props l t) = keys t.
Proof.
  induction l as [ | [k0 v0] l IH]; simpl; intros t H.
  - reflexivity.
  - rewrite IH.
    + apply keys_set_old, H. now left.
    + intros k Hk. rewrite keys_set_old by (apply H; now left).
      apply H. now right.
Qed.

Lemma keys_assign_present (fragments : list object) :
  forall t, (forall f k, In f fragments -> In k (keys f) -> In k (keys t)) ->
  keys (assign t (map VObj fragments)) = keys t.
Proof.
  unfold assign.
  induction fragments as [ | f fragments IH]; simpl; intros t H.
  - reflexivity.
  - assert (Hf : keys (assign_props f t) = keys t)
      by (apply keys_assign_props_present; intros k; apply H; now left).
    rewrite IH; [exact Hf | ].
    intros f' k Hin Hk. rewrite Hf. apply (H f' k); [now right | exact Hk].
Qed.

(** Two objects with the same keys in the same order and the same value
    under every key are the same object. *)
Lemma object_ext (o1 : object) :
  forall o2, keys o1 = keys o2 -> NoDup (keys o1) ->
  (forall k, get k o1 = get k o2) -> o1 = o2.
Proof.
  induction o1 as [ | [k1 v1] o1 IH]; intros [ | [k2 v2] o2] Hk Hd Hg;
    try discriminate; [reflexivity | ].
  simpl in Hk. injection Hk as <- Hk.
  inversion Hd as [ | ? ? Hn Hd']; subst.
  pose proof (Hg k1) as H1. simpl in H1. rewrite String.eqb_refl in H1.
  injection H1 as <-. f_equal.
  apply IH; [exact Hk | exact Hd' | ].
  intros k. specialize (Hg k). simpl in Hg.
  destruct (String.eqb_spec k1 k) as [E | Hne]; [ | exact Hg].
  rewrite <- E.
  assert (E1 : get k1 o1 = None) by now apply get_None_iff.
  assert (E2 : get k1 o2 = None) by (apply get_None_iff; now rewrite <- Hk).
  congruence.
Qed.

Lemma lookup_last_app (k : string) (fs gs : list object) :
  lookup_last k (fs ++ gs)
  = match lookup_last k gs with
    | Some v => Some v
    | None => lookup_last k fs
    end.
Proof.
  induction fs as [ | f fs IH]; simpl.
  - now destruct (lookup_last k gs).
  - rewrite IH. now destruct (lookup_last k gs).
Qed.

(** The effective schema never holds a field twice, whatever the
    fragments are and however their fields collide. *)
Theorem compose_keys_NoDup (sources : list value) :
  NoDup (keys (Basal.compose sources)).
Proof.
  unfold Basal.compose. apply NoDup_keys_assign. constructor.
Qed.

(** Composition is a right-biased merge: a field of the effective schema
    is the descriptor of the last fragment that declares it, whole, and the
    effective schema has a field exactly when some fragment has it. *)
Theorem compose_lookup (fragments : list object) (k : string) :
  forallb (fun f => nodup_keys (keys f)) fragments = true ->
  get k (Basal.compose (map VObj fragments)) = lookup_last k fragments
  /\ has k (Basal.compose (map VObj fragments)) = existsb (has k) fragments.
Proof.
  intros H. unfold Basal.compose. split.
  - rewrite (get_assign_objects k fragments H).
    now destruct (lookup_last k fragments).
  - rewrite has_assign_objects. apply orb_false_r.
Qed.

(** Composing an effective schema on its own gives it back, field for
    field and in the same order. *)
Theorem compose_of_composed (sources : list value) :
  Basal.compose [VObj (Basal.compose sources)] = Basal.compose sources.
Proof.
  unfold Basal.compose at 1. unfold assign. simpl.
  apply (assign_props_fresh (Basal.compose sources) []).
  apply compose_keys_NoDup.
Qed.

(** Composing a list of fragments followed by the same list again gives
    the composition of the list: nothing is added and every field ends at
    the descriptor it had. *)
Theorem compose_twice_over (fragments : list object) :
  forallb (fun f => nodup_keys (keys f)) fragments = true ->
  Basal.compose (map VObj (fragments ++ fragments))
  = Basal.compose (map VObj fragments).
Proof.
  intros H.
  assert (H2 : forallb (fun f => nodup_keys (keys f)) (fragments ++ fragments)
               = true) by (rewrite forallb_app; now rewrite H).
  apply object_ext.
  - unfold Basal.compose, assign. rewrite map_app, fold_left_app.
    apply (keys_assign_present fragments).
    intros f k Hf Hk. apply has_true_iff.
    change (has k (assign [] (map VObj fragments)) = true).
    rewrite has_assign_objects, orb_false_r.
    apply existsb_exists. exists f. split; [exact Hf | now apply has_true_iff].
  - apply compose_keys_NoDup.
  - intros k. unfold Basal.compose.
    rewrite (get_assign_objects k _ H2), (get_assign_objects k _ H).
    rewrite lookup_last_app. simpl.
    now destruct (lookup_last k fragments).
Qed.

End ComposeFacts.

(* ================================================================== *)
(** * Composition, run twice *)

Section ComposeTwice.
Import JS Lodash ObjectFacts LodashFacts Fragments ComposeFacts.
Local Open Scope list_scope.

Lemma get_Some_In (k : string) (v : value) (o : object) :
  get k o = Some v -> In (k, v) o.
Proof.
  induction o as [ | [k0 v0] o IH]; simpl.
  - discriminate.
  - destruct (String.eqb_spec k0 k) as [-> | _].
    + intros [= ->]. now left.
    + intros H. right. now apply IH.
Qed.

Lemma get_Some_has (k : string) (o : object) :
  In k (keys o) <-> exists v, get k o = Some v.
Proof.
  rewrite <- has_true_iff. unfold has.
  destruct (get k o) as [v | ]; split; try discriminate; eauto.
  intros [v H]. discriminate H.
Qed.

Lemma isEqual_objects (o1 o2 : object) :
  isEqual (VObj o1) (VObj o2)
  = Nat.eqb (List.length o1) (List.length o2)
    && forallb
         (fun kv : string * value =>
            let '(k, v) := kv in
            match get k o2 with
            | Some v' => isEqual v v'
            | None => false
            end) o1.
Proof. reflexivity. Qed.

(** Structurally equal objects have the same fields. *)
Lemma isEqual_same_fields (o1 o2 : object) :
  NoDup (keys o1) ->
  isEqual (VObj o1) (VObj o2) = true -> same_fields o1 o2.
Proof.
  intros Hd H. rewrite isEqual_objects in H.
  apply andb_prop in H as [Hlen Hall].
  apply Nat.eqb_eq in Hlen. rewrite forallb_forall in Hall.
  assert (Hincl : incl (keys o1) (keys o2)).
  { intros k Hk. apply get_Some_has in Hk as [v Hv].
    specialize (Hall (k, v) (get_Some_In k v o1 Hv)). simpl in Hall.
    apply get_Some_has. destruct (get k o2) as [v' | ]; [eauto | discriminate]. }
  assert (Hback : incl (keys o2) (keys o1)).
  { apply NoDup_length_incl; [exact Hd | | exact Hincl].
    unfold keys. rewrite !length_map. now rewrite Hlen. }
  intros k. destruct (get k o1) as [v | ] eqn:E1.
  - specialize (Hall (k, v) (get_Some_In k v o1 E1)). simpl in Hall.
    destruct (get k o2) as [v' | ]; [exact Hall | discriminate].
  - destruct (get k o2) as [v' | ] eqn:E2; [ | exact I].
    apply get_None_iff in E1. apply E1, Hback, get_Some_has. eauto.
Qed.

(** Objects with the same fields are structurally equal. *)
Lemma same_fields_isEqual (o1 o2 : object) :
  NoDup (keys o1) -> NoDup (keys o2) ->
  same_fields o1 o2 -> isEqual (VObj o1) (VObj o2) = true.
Proof.
  intros Hd1 Hd2 H. rewrite isEqual_objects. apply andb_true_intro. split.
  - apply Nat.eqb_eq.
    assert (H12 : incl (keys o1) (keys o2)).
    { intros k Hk. apply get_Some_has in Hk as [v Hv]. apply get_Some_has.
      specialize (H k). rewrite Hv in H.
      destruct (get k o2) as [v' | ]; [eauto | contradiction]. }
    assert (H21 : incl (keys o2) (keys o1)).
    { intros k Hk. apply get_Some_has in Hk as [v Hv]. apply get_Some_has.
      specialize (H k). rewrite Hv in H.
      destruct (get k o1) as [v' | ]; [eauto | contradiction]. }
    pose proof (NoDup_incl_length Hd1 H12) as L1.
    pose proof (NoDup_incl_length Hd2 H21) as L2.
    unfold keys in L1, L2. rewrite !length_map in L1, L2. lia.
  - apply forallb_forall. intros [k v] Hin.
    specialize (H k). rewrite (get_In k v o1 Hd1 Hin) in H.
    destruct (get k o2) as [v' | ]; [exact H | contradiction].
Qed.

(** Structurally equal arrays of fragments are equal fragment by
    fragment. *)
Lemma isEqual_fragment_lists (fragments : list object) :
  forall copies,
    isEqual (VArr (map VObj fragments)) (VArr (map VObj copies)) = true ->
    Forall2 (fun f g => isEqual (VObj f) (VObj g) = true) fragments copies.
Proof.
  induction fragments as [ | f fragments IH]; intros [ | g copies] H;
    try discriminate H.
  - constructor.
  - change (isEqual (VObj f) (VObj g)
            && isEqual (VArr (map VObj fragments)) (VArr (map VObj copies))
            = true) in H.
    apply andb_prop in H as [Hf H]. constructor; [exact Hf | now apply IH].
Qed.

Lemma lookup_last_same_fields (fragments copies : list object) (k : string) :
  Forall2 same_fields fragments copies ->
  match lookup_last k fragments, lookup_last k copies with
  | Some v, Some v' => isEqual v v' = true
  | None, None => True
  | _, _ => False
  end.
Proof.
  induction 1 as [ | f g fragments copies Hfg _ IH]; simpl.
  - exact I.
  - destruct (lookup_last k fragments), (lookup_last k copies);
      try contradiction; [exact IH | apply Hfg].
Qed.

Lemma compose_get (fragments : list object) (k : string) :
  forallb (fun f => wf (VObj f)) fragments = true ->
  get k (Basal.compose (map VObj fragments)) = lookup_last k fragments.
Proof.
  intros H. unfold Basal.compose. rewrite get_assign_objects.
  - now destruct (lookup_last k fragments).
  - rewrite forallb_forall in H. apply forallb_forall. intros f Hf.
    specialize (H f Hf). simpl in H. now apply andb_prop in H as [H _].
Qed.

Lemma wf_fragments_NoDup (fragments : list object) :
  forallb (fun f => wf (VObj f)) fragments = true ->
  Forall (fun f => NoDup (keys f)) fragments.
Proof.
  intros H. rewrite forallb_forall in H. apply Forall_forall. intros f Hf.
  specialize (H f Hf). simpl in H. apply andb_prop in H as [H _].
  now apply nodup_keys_iff.
Qed.

Lemma compose_value_wf (fragments : list object) (k : string) (v : value) :
  forallb (fun f => wf (VObj f)) fragments = true ->
  get k (Basal.compose (map VObj fragments)) = Some v -> wf v = true.
Proof.
  intros H Hg.
  pose proof (wf_assign fragments [] eq_refl H) as Hwf.
  change (assign [] (map VObj fragments))
    with (Basal.compose (map VObj fragments)) in Hwf.
  simpl in Hwf. apply andb_prop in Hwf as [_ Hv].
  rewrite forallb_forall in Hv. exact (Hv (k, v) (get_Some_In k v _ Hg)).
Qed.

(** C4: composition is deterministic and idempotent.  The effective
    schema is decided by the ordered fragment list alone: each field is the
    descriptor of the last fragment that declares it.  Composing the list
    twice, the second time from a list written down independently (another
    array of structurally equal fragments), gives effective schemas that
    the structural comparison [_.isEqual] finds equal; so does composing
    the very same list twice; and composing the list followed by itself, or
    composing the composed schema again, gives a schema structurally equal
    to the first. *)
Theorem compose_deterministic_idempotent (fragments copies : list object) :
  forallb (fun f => wf (VObj f)) fragments = true ->
  forallb (fun f => wf (VObj f)) copies = true ->
  isEqual (VArr (map VObj fragments)) (VArr (map VObj copies)) = true ->
  (forall k,
      get k (Basal.compose (map VObj fragments)) = lookup_last k fragments)
  /\ isEqual (VObj (Basal.compose (map VObj fragments)))
             (VObj (Basal.compose (map VObj copies))) = true
  /\ isEqual (VObj (Basal.compose (map VObj fragments)))
             (VObj (Basal.compose (map VObj fragments))) = true
  /\ isEqual (VObj (Basal.compose (map VObj (fragments ++ fragments))))
             (VObj (Basal.compose (map VObj fragments))) = true
  /\ isEqual (VObj (Basal.compose [VObj (Basal.compose (map VObj fragments))]))
             (VObj (Basal.compose (map VObj fragments))) = true.
Proof.
  intros Hf Hc He.
  assert (Hself : forall v, (exists k,
                    get k (Basal.compose (map VObj fragments)) = Some v) ->
                  isEqual v v = true).
  { intros v [k Hk]. apply isEqual_refl. exact (compose_value_wf _ k v Hf Hk). }
  split; [intros k; now apply compose_get | ].
  split; [ | split; [ | split]].
  - (* a second list, written down independently *)
    apply same_fields_isEqual; try apply compose_keys_NoDup.
    intros k. rewrite (compose_get _ k Hf), (compose_get _ k Hc).
    apply lookup_last_same_fields.
    pose proof (isEqual_fragment_lists _ _ He) as H2.
    pose proof (wf_fragments_NoDup _ Hf) as Hd.
    clear He Hf Hc Hself. induction H2 as [ | f g fs gs Hfg _ IH].
    + constructor.
    + inversion Hd as [ | ? ? Hdf Hd']; subst.
      constructor; [now apply isEqual_same_fields | now apply IH].
  - (* the same list *)
    apply same_fields_isEqual; try apply compose_keys_NoDup.
    intros k. destruct (get k (Basal.compose (map VObj fragments))) as [v | ] eqn:E;
      [ | exact I].
    apply Hself. eauto.
  - (* the list followed by itself *)
    apply same_fields_isEqual; try apply compose_keys_NoDup.
    intros k.
    assert (Hff : forallb (fun f => wf (VObj f)) (fragments ++ fragments) = true)
      by (rewrite forallb_app; apply andb_true_intro; split; exact Hf).
    rewrite (compose_get _ k Hff), lookup_last_app.
    assert (E : match lookup_last k fragments with
                | Some v => Some v
                | None => lookup_last k fragments
                end = lookup_last k fragments)
      by now destruct (lookup_last k fragments).
    rewrite E, <- (compose_get _ k Hf).
    destruct (get k (Basal.compose (map VObj fragments))) as [v | ] eqn:E';
      [ | exact I].
    apply Hself. eauto.
  - (* the composed schema, composed again *)
    apply same_fields_isEqual; try apply compose_keys_NoDup.
    intros k.
    assert (E : get k (Basal.compose [VObj (Basal.compose (map VObj fragments))])
                = get k (Basal.compose (map VObj fragments))).
    { unfold Basal.compose at 1.
      rewrite (get_assign_objects k [Basal.compose (map VObj fragments)]).
      - simpl. now destruct (get k (Basal.compose (map VObj fragments))).
      - simpl. rewrite andb_true_r. apply nodup_keys_iff, compose_keys_NoDup. }
    rewrite E.
    destruct (get k (Basal.compose (map VObj fragments))) as [v | ] eqn:E';
      [ | exact I].
    apply Hself. eauto.
Qed.

End ComposeTwice.

(* ================================================================== *)
(** * More on what generate returns, whatever common.generate returns *)

Section GenerateFrame.
Import World JS ObjectFacts LodashFacts ComposeFacts.
Local Open Scope list_scope.

Variable ToString_other : value -> string.
Variable StringToNumber : string -> number.
Variable moment : value -> Moment.moment.
Variable utcOffset : Z -> Z.
Variable toISOString : Moment.moment -> value.
Variable common_generate : object -> value -> value -> world -> object * world.
Variable common_duration : value.
Variable common_basalRateValue : value.
Variable common_basalRateSummary : value.
Variable common_SCHEDULE_NAMES : value.

Local Abbreviation generate :=
  (Basal.generate ToString_other StringToNumber moment utcOffset toISOString
     common_generate common_duration common_basalRateValue
     common_basalRateSummary common_SCHEDULE_NAMES).
Local Abbreviation effective_schema :=
  (Basal.effective_schema ToString_other common_duration common_basalRateValue
     common_basalRateSummary common_SCHEDULE_NAMES).
Local Abbreviation suppressed_schema :=
  (Basal.suppressed_schema common_duration common_basalRateValue
     common_basalRateSummary common_SCHEDULE_NAMES).
Local Abbreviation schemas :=
  (Basal.schemas common_duration common_basalRateValue
     common_basalRateSummary common_SCHEDULE_NAMES).
Local Abbreviation attach_suppressed :=
  (Basal.attach_suppressed ToString_other StringToNumber).
Local Abbreviation times := (JS.times ToString_other StringToNumber).
Local Abbreviation suppressed_keys :=
  ["type"; "deliveryType"; "scheduleName"; "rate"].
Local Abbreviation nested_types := [VStr "temp"; VStr "suspend"].

Lemma existsb_eqb_false (k : string) (l : list string) :
  existsb (String.eqb k) l = false ->
  forall x, In x l -> String.eqb x k = false.
Proof.
  intros H x Hx. apply String.eqb_neq. intros ->.
  assert (E : existsb (String.eqb k) l = true)
    by (apply existsb_exists; exists k; split;
        [exact Hx | apply String.eqb_refl]).
  congruence.
Qed.

Lemma attach_suppressed_gets (b s : object) :
  let out := attach_suppressed b s in
  get "suppressed" out = Some (VObj (Lodash.pick s suppressed_keys))
  /\ get "expectedDuration" out
     = Some (times (VNum (Number.decimal 12 1)) (prop b "duration"))
  /\ get "rate" out
     = (if truthy (prop b "percent")
        then Some (times (prop b "percent") (prop s "rate"))
        else get "rate" b)
  /\ forall k,
       existsb (String.eqb k) ["suppressed"; "rate"; "expectedDuration"] = false ->
       get k out = get k b.
Proof.
  unfold Basal.attach_suppressed.
  rewrite !prop_set. eval_eqb.
  destruct (truthy (prop b "percent")); rewrite ?get_set, ?prop_set; eval_eqb;
    repeat split; try reflexivity; intros k Hk;
    pose proof (existsb_eqb_false k _ Hk) as Hne; rewrite ?get_set;
    rewrite ?(Hne "suppressed"), ?(Hne "rate"), ?(Hne "expectedDuration");
    simpl; tauto.
Qed.

Lemma keys_pick_step (o : object) (paths : list string) :
  forall r, NoDup paths -> (forall k, In k paths -> ~ In k (keys r)) ->
  keys (fold_left
          (fun r k' => match get k' o with Some v => set k' v r | None => r end)
          paths r)
  = keys r ++ filter (fun k => has k o) paths.
Proof.
  induction paths as [ | a paths IH]; simpl; intros r Hd Hr.
  - now rewrite app_nil_r.
  - inversion Hd as [ | ? ? Hn Hd']; subst. unfold has at 1.
    destruct (get a o) as [v | ] eqn:E.
    + rewrite keys_set_new by (apply Hr; now left).
      rewrite IH; [ | exact Hd' | ].
      * unfold keys. rewrite map_app, <- app_assoc. reflexivity.
      * intros k Hk Hin. unfold keys in Hin. rewrite map_app in Hin.
        apply in_app_or in Hin as [Hin | [<- | []]].
        -- apply (Hr k); [now right | exact Hin].
        -- contradiction.
    + apply IH; [exact Hd' | ]. intros k Hk. apply Hr. now right.
Qed.

(** [_.pick] keeps the listed properties the source has, in the order of
    the list. *)
Lemma keys_pick (o : object) (paths : list string) :
  NoDup paths -> keys (Lodash.pick o paths) = filter (fun k => has k o) paths.
Proof.
  intros H. unfold Lodash.pick. rewrite keys_pick_step; [reflexivity | exact H | ].
  intros k _ [].
Qed.

(** [generate] returns an instance exactly when [subType] is one of the
    three strings; any other value, of whatever type, ends in the exit. *)
Theorem generate_returns_iff_known (opts : Basal.options) (w : world) :
  (exists out w', generate opts w = (Returned out, w'))
  <-> (Basal.subType opts = VStr "scheduled"
       \/ Basal.subType opts = VStr "temp"
       \/ Basal.subType opts = VStr "suspend").
Proof.
  rewrite <- known_subType. split.
  - intros (out & w' & H).
    destruct (Lodash.includes Basal.deliveryTypes (Basal.subType opts)) eqn:E;
      [reflexivity | ].
    unfold Basal.generate in H. rewrite E in H. discriminate H.
  - intros Hk.
    destruct (Lodash.includes nested_types (Basal.subType opts)) eqn:E.
    + rewrite (generate_nested _ _ _ _ _ _ _ _ _ _ opts w E). eauto.
    + rewrite (generate_flat _ _ _ _ _ _ _ _ _ _ opts w Hk E). eauto.
Qed.

(** Every known delivery type has its fragment in [schemas]; the effective
    schema is the base fragment followed by that fragment, none of whose
    fields overrides a base field, and the fragment's [deliveryType]
    literal is the delivery type itself. *)
Theorem known_subType_fragment (v : value) :
  Lodash.includes Basal.deliveryTypes v = true ->
  exists fragment,
    prop schemas (ToString ToString_other v) = VObj fragment
    /\ effective_schema v = Basal.base ++ fragment
    /\ member (prop fragment "deliveryType") "instance" = v.
Proof.
  intros H. apply known_subType in H as [-> | [-> | ->]];
    eexists; repeat split; reflexivity.
Qed.

(** A temp or suspend basal always carries [suppressed] and
    [expectedDuration]; [expectedDuration] is 1.2 times the returned
    [duration]; [percent] is returned as generated; a truthy [percent]
    makes [rate] the product of the returned [percent] and the returned
    [suppressed.rate], and any other [percent] leaves [rate] as generated. *)
Theorem nested_generate_derived (opts : Basal.options) (w : world) :
  Lodash.includes nested_types (Basal.subType opts) = true ->
  let utc :=
    toISOString (Moment.startOf_hour utcOffset (moment (Basal.timestamp opts))) in
  let outer :=
    common_generate (effective_schema (Basal.subType opts)) utc
      (Basal.format opts) w in
  exists out w',
    generate opts w = (Returned out, w')
    /\ has "suppressed" out = true
    /\ has "expectedDuration" out = true
    /\ prop out "expectedDuration"
       = times (VNum (Number.decimal 12 1)) (prop out "duration")
    /\ prop out "percent" = prop (fst outer) "percent"
    /\ (truthy (prop out "percent") = true ->
        prop out "rate"
        = times (prop out "percent") (member (prop out "suppressed") "rate"))
    /\ (truthy (prop out "percent") = false ->
        get "rate" out = get "rate" (fst outer)).
Proof.
  intros H. cbv zeta.
  rewrite (generate_nested _ _ _ _ _ _ _ _ _ _ opts w H). cbv zeta.
  eexists. eexists. split; [reflexivity | ].
  match goal with
  | |- context [attach_suppressed ?b0 ?s0] =>
      destruct (attach_suppressed_props ToString_other StringToNumber b0 s0)
        as (Hs & Hp & Hr & Hd & He & _);
      destruct (attach_suppressed_gets b0 s0) as (Gs & Ge & Gr & _);
      set (out := attach_suppressed b0 s0) in *;
      set (s := s0) in *
  end.
  unfold has. rewrite Gs, Ge, Hs, Hp, Hd, He, Gr.
  rewrite !prop_delete, !get_delete. eval_eqb.
  repeat split.
  - intros Ht. rewrite Hr, prop_delete. eval_eqb. rewrite Ht.
    cbn [member]. unfold prop at 4. rewrite get_pick.
    change (existsb (String.eqb "rate") suppressed_keys) with true.
    reflexivity.
  - intros Ht. now rewrite Ht.
Qed.

(** The [suppressed] sub-record is a restricted copy of the record
    generated for it: it has those of the keys type, deliveryType,
    scheduleName and rate that the generated record has, in this order,
    each with the generated value, and nothing else. *)
Theorem suppressed_is_restricted_copy (opts : Basal.options) (w : world) :
  Lodash.includes nested_types (Basal.subType opts) = true ->
  let utc :=
    toISOString (Moment.startOf_hour utcOffset (moment (Basal.timestamp opts))) in
  let outer :=
    common_generate (effective_schema (Basal.subType opts)) utc
      (Basal.format opts) w in
  let nested := common_generate suppressed_schema utc VUndefined (snd outer) in
  exists out supp,
    generate opts w = (Returned out, snd nested)
    /\ prop out "suppressed" = VObj supp
    /\ keys supp = filter (fun k => has k (fst nested)) suppressed_keys
    /\ forall k,
         get k supp
         = if existsb (String.eqb k) suppressed_keys
           then get k (fst nested) else None.
Proof.
  intros H. cbv zeta.
  rewrite (generate_nested _ _ _ _ _ _ _ _ _ _ opts w H). cbv zeta.
  eexists. eexists. split; [reflexivity | ].
  match goal with
  | |- context [attach_suppressed ?b0 ?s0] =>
      destruct (attach_suppressed_props ToString_other StringToNumber b0 s0)
        as (Hs & _)
  end.
  split; [exact Hs | ]. split.
  - apply keys_pick. repeat constructor; simpl; intuition discriminate.
  - intros k. apply get_pick.
Qed.

(** A temp or suspend basal returns every other field as common.generate
    produced it: only previous, suppressed, rate and expectedDuration are
    ever removed, added or changed. *)
Theorem nested_generate_frame (opts : Basal.options) (w : world) (k : string) :
  Lodash.includes nested_types (Basal.subType opts) = true ->
  existsb (String.eqb k) ["previous"; "suppressed"; "rate"; "expectedDuration"]
  = false ->
  let utc :=
    toISOString (Moment.startOf_hour utcOffset (moment (Basal.timestamp opts))) in
  let outer :=
    common_generate (effective_schema (Basal.subType opts)) utc
      (Basal.format opts) w in
  exists out w',
    generate opts w = (Returned out, w') /\ get k out = get k (fst outer).
Proof.
  intros H Hk. cbv zeta.
  rewrite (generate_nested _ _ _ _ _ _ _ _ _ _ opts w H). cbv zeta.
  eexists. eexists. split; [reflexivity | ].
  pose proof (existsb_eqb_false k _ Hk) as Hne.
  match goal with
  | |- context [attach_suppressed ?b0 ?s0] =>
      destruct (attach_suppressed_gets b0 s0) as (_ & _ & _ & Hg)
  end.
  rewrite Hg.
  - rewrite get_delete, (Hne "previous"); [reflexivity | simpl; tauto].
  - simpl in Hk |- *. now destruct (String.eqb k "previous").
Qed.

(** A scheduled basal is what common.generate produced without [previous]
    and without a non-null [expectedDuration]: every other field is
    returned as generated, nothing is attached, and an [expectedDuration]
    that was generated as null or undefined stays. *)
Theorem scheduled_generate_frame (opts : Basal.options) (w : world) :
  Basal.subType opts = VStr "scheduled" ->
  let utc :=
    toISOString (Moment.startOf_hour utcOffset (moment (Basal.timestamp opts))) in
  let outer :=
    common_generate (effective_schema (Basal.subType opts)) utc
      (Basal.format opts) w in
  exists out,
    generate opts w = (Returned out, snd outer)
    /\ has "previous" out = false
    /\ not_nullish (prop out "expectedDuration") = false
    /\ (forall k,
          existsb (String.eqb k) ["previous"; "expectedDuration"] = false ->
          get k out = get k (fst outer))
    /\ (not_nullish (prop (fst outer) "expectedDuration") = false ->
        get "expectedDuration" out = get "expectedDuration" (fst outer)).
Proof.
  intros Hs. cbv zeta.
  rewrite (generate_flat _ _ _ _ _ _ _ _ _ _ opts w);
    [ | rewrite Hs; reflexivity | rewrite Hs; reflexivity ].
  cbv zeta. eexists. split; [reflexivity | ].
  unfold Basal.drop_expectedDuration.
  rewrite prop_delete. eval_eqb.
  destruct (not_nullish (prop (fst (common_generate _ _ (Basal.format opts) w))
                           "expectedDuration")) eqn:E.
  - rewrite !has_delete, !prop_delete. eval_eqb. repeat split.
    + intros k Hk. pose proof (existsb_eqb_false k _ Hk) as Hne.
      rewrite !get_delete.
      rewrite (Hne "previous"), (Hne "expectedDuration"); simpl; tauto.
    + discriminate.
  - rewrite has_delete, prop_delete. eval_eqb. repeat split.
    + exact E.
    + intros k Hk. pose proof (existsb_eqb_false k _ Hk) as Hne.
      rewrite get_delete, (Hne "previous"); simpl; tauto.
    + intros _. rewrite get_delete. eval_eqb. reflexivity.
Qed.

(** Two timestamps in the same clock hour of a zone with a fixed offset
    give the same result from the same world. *)
Theorem generate_within_one_hour
  (opts : Basal.options) (ts' : value) (w : world) (c t t' : Z) :
  (forall x, utcOffset x = c) ->
  moment (Basal.timestamp opts) = Some t ->
  moment ts' = Some t' ->
  (t + c * 60000) / 3600000 = (t' + c * 60000) / 3600000 ->
  generate opts w
  = generate {| Basal.subType := Basal.subType opts;
                Basal.timestamp := ts';
                Basal.format := Basal.format opts |} w.
Proof.
  intros Hc Ht Ht' Hh.
  apply generate_same_hour; try reflexivity.
  cbn [Basal.timestamp]. rewrite Ht, Ht'. simpl. rewrite !Hc.
  unfold Moment.MS_PER_MINUTE, Moment.MS_PER_HOUR.
  pose proof (Z.div_mod (t + c * 60000) 3600000 ltac:(lia)).
  pose proof (Z.div_mod (t' + c * 60000) 3600000 ltac:(lia)).
  f_equal. lia.
Qed.

End GenerateFrame.

(* ================================================================== *)
(** * More on the generator functions *)

Section GeneratorValues.
Import World JS.

Lemma percent_exact_checked :
  forallb MoreChecks.percent_exact_ok (Checks.upto (Z.to_nat 10001) 0) = true.
Proof. vm_compute. reflexivity. Qed.

Lemma twentieth_zero_checked :
  forallb MoreChecks.twentieth_zero_ok (Checks.upto 21 0) = true.
Proof. vm_compute. reflexivity. Qed.

Lemma tenth_distinct_checked :
  forallb MoreChecks.tenth_distinct_ok (Checks.upto 51 0) = true.
Proof. vm_compute. reflexivity. Qed.

Lemma percent_draw_bounds (n : Z) :
  0 <= n <= 10000 ->
  0 <= (n + 250) / 500 <= 20 /\ ((n + 250) / 500 = 0 <-> n < 250).
Proof.
  intros H.
  pose proof (Z.div_mod (n + 250) 500 ltac:(lia)).
  pose proof (Z.mod_pos_bound (n + 250) 500 ltac:(lia)).
  lia.
Qed.

(** The float arithmetic of line 40 on the draw [n]. *)
Lemma percent_value_checked (n : Z) :
  0 <= n <= 10000 ->
  Number.div
    (Number.round
       (Number.mul (Checks.fixed_quotient Chance.default_fixed n) (Number.of_Z 20)))
    (Number.of_Z 20)
  = Checks.twentieth ((n + 250) / 500).
Proof.
  intros Hn.
  pose proof (CheckFacts.forallb_upto _ _ _ percent_exact_checked n
                ltac:(rewrite Z2Nat.id; lia)) as Hok.
  unfold MoreChecks.percent_exact_ok in Hok.
  now apply NumberFacts.same_bits_eq in Hok.
Qed.

(** [percentInstance], with its calls into chance unfolded. *)
Lemma percentInstance_unfold (w : world) :
  Basal.percentInstance w
  = (VNum (Number.div
             (Number.round
                (Number.mul
                   (Checks.fixed_quotient Chance.default_fixed
                      (Z.of_N (chance_basal w 0%nat) mod 10001))
                   (Number.of_Z 20)))
             (Number.of_Z 20)),
     with_chance_basal (fun i => chance_basal w (S i)) w).
Proof. reflexivity. Qed.

Lemma percent_draw_in_range (w : world) :
  0 <= Z.of_N (chance_basal w 0%nat) mod 10001 <= 10000.
Proof.
  pose proof (Z.mod_pos_bound (Z.of_N (chance_basal w 0%nat)) 10001 ltac:(lia)).
  lia.
Qed.

(** [percentInstance] takes one draw [n] of [0..10000] from the random
    source of basal.js and nothing else from the world, and returns the
    twentieth nearest to [n / 10000], a tie going up: the float arithmetic
    of line 40 never rounds to a neighbouring twentieth. *)
Theorem percentInstance_exact (w : world) :
  let n := Z.of_N (chance_basal w 0%nat) mod 10001 in
  Basal.percentInstance w
  = (VNum (Checks.twentieth ((n + 250) / 500)),
     with_chance_basal (fun i => chance_basal w (S i)) w)
  /\ 0 <= n <= 10000
  /\ 0 <= (n + 250) / 500 <= 20.
Proof.
  cbv zeta. pose proof (percent_draw_in_range w) as Hn.
  split; [ | split].
  - rewrite percentInstance_unfold.
    now rewrite (percent_value_checked _ Hn).
  - exact Hn.
  - now apply percent_draw_bounds.
Qed.

(** The generated percentage is falsy, so that line 392 leaves [rate]
    alone, exactly when the draw is below 250. *)
Theorem percent_falsy_iff (w : world) :
  truthy (fst (Basal.percentInstance w)) = false
  <-> Z.of_N (chance_basal w 0%nat) mod 10001 < 250.
Proof.
  pose proof (percent_draw_in_range w) as Hn.
  rewrite percentInstance_unfold, (percent_value_checked _ Hn).
  pose proof (percent_draw_bounds _ Hn) as [Hk _].
  set (n := Z.of_N (chance_basal w 0%nat) mod 10001) in *.
  cbn [fst truthy].
  pose proof (CheckFacts.forallb_upto _ _ _ twentieth_zero_checked
                ((n + 250) / 500) ltac:(simpl; lia)) as Hok.
  unfold MoreChecks.twentieth_zero_ok in Hok.
  apply andb_prop in Hok as [Hz Hnan].
  apply Bool.eqb_prop in Hz. apply negb_true_iff in Hnan.
  rewrite Hz, Hnan, orb_false_r, negb_false_iff, Z.eqb_eq.
  apply percent_draw_bounds. lia.
Qed.

(** Every twentieth from 0 to 1, both ends included, is generated by
    some draw. *)
Theorem percent_reaches_every_twentieth (k : Z) :
  0 <= k <= 20 ->
  exists w, fst (Basal.percentInstance w) = VNum (Checks.twentieth k).
Proof.
  intros Hk. exists (MoreSamples.percent_world k).
  rewrite percentInstance_unfold,
    (percent_value_checked _ (percent_draw_in_range _)).
  cbn [fst]. do 2 f_equal.
  change (chance_basal (MoreSamples.percent_world k) 0%nat)
    with (Z.to_N (500 * k)).
  rewrite Z2N.id by lia. rewrite Z.mod_small by lia.
  replace (500 * k + 250) with (250 + k * 500) by lia.
  rewrite Z.div_add by lia. reflexivity.
Qed.

Lemma value_instance_draw (w : world) :
  BloodKetone.value_instance w
  = (VNum (Number.decimal (Z.of_N (chance_bloodKetone w 0%nat) mod 51) 1),
     with_chance_bloodKetone (fun i => chance_bloodKetone w (S i)) w).
Proof. reflexivity. Qed.

(** The value generator of bloodKetone has exactly the 51 outcomes
    [0.0, 0.1, ..., 5.0]: each is generated by some draw, the two ends
    included, and no two of them are the same number. *)
Theorem bloodKetone_value_outcomes (n m : Z) :
  0 <= n <= 50 -> 0 <= m <= 50 ->
  (exists w, fst (BloodKetone.value_instance w) = VNum (Number.decimal n 1))
  /\ (Number.eqb (Number.decimal n 1) (Number.decimal m 1) = true -> n = m).
Proof.
  intros Hn Hm. split.
  - exists (MoreSamples.tenth_world n). rewrite value_instance_draw.
    cbn [fst]. do 2 f_equal.
    change (chance_bloodKetone (MoreSamples.tenth_world n) 0%nat)
      with (Z.to_N n).
    rewrite Z2N.id by lia. apply Z.mod_small. lia.
  - intros E.
    pose proof (CheckFacts.forallb_upto _ _ _ tenth_distinct_checked n
                  ltac:(simpl; lia)) as Hok.
    unfold MoreChecks.tenth_distinct_ok in Hok.
    pose proof (CheckFacts.forallb_upto _ _ _ Hok m ltac:(simpl; lia)) as H.
    cbv beta in H. rewrite E in H. simpl in H. now apply Z.eqb_eq.
Qed.

End GeneratorValues.

(* ================================================================== *)
(** * The further theorems at the sample environment *)

Section MoreWitnesses.
Import World JS.

Lemma compose_lookup_witness :
  forallb (fun f => nodup_keys (keys f)) Sample.temp_fragments = true
  /\ get "type" (Basal.compose (map VObj Sample.temp_fragments))
     = Fragments.lookup_last "type" Sample.temp_fragments
  /\ has "type" (Basal.compose (map VObj Sample.temp_fragments))
     = existsb (has "type") Sample.temp_fragments.
Proof.
  split; [reflexivity | ].
  apply (ComposeFacts.compose_lookup Sample.temp_fragments "type"). reflexivity.
Defined.

Lemma compose_twice_over_witness :
  forallb (fun f => nodup_keys (keys f)) Sample.temp_fragments = true
  /\ Basal.compose (map VObj (Sample.temp_fragments ++ Sample.temp_fragments)%list)
     = Basal.compose (map VObj Sample.temp_fragments).
Proof.
  split; [reflexivity | ].
  apply (ComposeFacts.compose_twice_over Sample.temp_fragments). reflexivity.
Defined.

Lemma known_subType_fragment_witness :
  Lodash.includes Basal.deliveryTypes (VStr "suspend") = true
  /\ exists fragment,
       prop (Basal.schemas (VFun "common.duration" Common.duration)
               (VFun "common.basalRateValue" Sample.basalRateValue)
               Sample.basalRateSummary Sample.SCHEDULE_NAMES)
         (ToString Sample.ToString_other (VStr "suspend")) = VObj fragment
       /\ Basal.effective_schema Sample.ToString_other
            (VFun "common.duration" Common.duration)
            (VFun "common.basalRateValue" Sample.basalRateValue)
            Sample.basalRateSummary Sample.SCHEDULE_NAMES (VStr "suspend")
          = (Basal.base ++ fragment)%list
       /\ member (prop fragment "deliveryType") "instance" = VStr "suspend".
Proof.
  split; [reflexivity | ].
  apply (known_subType_fragment Sample.ToString_other
           (VFun "common.duration" Common.duration)
           (VFun "common.basalRateValue" Sample.basalRateValue)
           Sample.basalRateSummary Sample.SCHEDULE_NAMES (VStr "suspend")).
  reflexivity.
Defined.

Lemma nested_generate_derived_witness :
  Lodash.includes [VStr "temp"; VStr "suspend"]
    (Basal.subType Sample.temp_example) = true
  /\ exists out w',
       Sample.basal_generate Sample.temp_example Sample.start = (Returned out, w')
       /\ has "suppressed" out = true
       /\ has "expectedDuration" out = true
       /\ prop out "expectedDuration"
          = times Sample.ToString_other Sample.StringToNumber
              (VNum (Number.decimal 12 1)) (prop out "duration").
Proof.
  split; [reflexivity | ].
  destruct (nested_generate_derived
              Sample.ToString_other Sample.StringToNumber Sample.moment
              Sample.utcOffset Sample.toISOString
              (Common.generate Sample.envelope)
              (VFun "common.duration" Common.duration)
              (VFun "common.basalRateValue" Sample.basalRateValue)
              Sample.basalRateSummary Sample.SCHEDULE_NAMES
              Sample.temp_example Sample.start eq_refl)
    as (out & w' & Hg & Hs & He & Hd & _).
  exists out, w'. repeat split; assumption.
Defined.

Lemma suppressed_is_restricted_copy_witness :
  Lodash.includes [VStr "temp"; VStr "suspend"]
    (Basal.subType MoreSamples.suspend_example) = true
  /\ exists out supp w',
       Sample.basal_generate MoreSamples.suspend_example Sample.start
       = (Returned out, w')
       /\ prop out "suppressed" = VObj supp
       /\ forall k,
            has k supp = true ->
            existsb (String.eqb k)
              ["type"; "deliveryType"; "scheduleName"; "rate"] = true.
Proof.
  split; [reflexivity | ].
  destruct (suppressed_is_restricted_copy
              Sample.ToString_other Sample.StringToNumber Sample.moment
              Sample.utcOffset Sample.toISOString
              (Common.generate Sample.envelope)
              (VFun "common.duration" Common.duration)
              (VFun "common.basalRateValue" Sample.basalRateValue)
              Sample.basalRateSummary Sample.SCHEDULE_NAMES
              MoreSamples.suspend_example Sample.start eq_refl)
    as (out & supp & Hg & Hs & _ & Hget).
  exists out, supp. eexists. split; [exact Hg | ]. split; [exact Hs | ].
  intros k. unfold has. rewrite Hget.
  now destruct (existsb (String.eqb k)
                  ["type"; "deliveryType"; "scheduleName"; "rate"]).
Defined.

Lemma nested_generate_frame_witness :
  Lodash.includes [VStr "temp"; VStr "suspend"]
    (Basal.subType Sample.temp_example) = true
  /\ existsb (String.eqb "time")
       ["previous"; "suppressed"; "rate"; "expectedDuration"] = false
  /\ exists out w',
       Sample.basal_generate Sample.temp_example Sample.start = (Returned out, w')
       /\ get "time" out = Some (VStr "2016-05-04T08:00:00.000Z").
Proof.
  split; [reflexivity | ]. split; [reflexivity | ].
  destruct (nested_generate_frame
              Sample.ToString_other Sample.StringToNumber Sample.moment
              Sample.utcOffset Sample.toISOString
              (Common.generate Sample.envelope)
              (VFun "common.duration" Common.duration)
              (VFun "common.basalRateValue" Sample.basalRateValue)
              Sample.basalRateSummary Sample.SCHEDULE_NAMES
              Sample.temp_example Sample.start "time" eq_refl eq_refl)
    as (out & w' & Hg & Hk).
  exists out, w'. split; [exact Hg | ]. rewrite Hk.
  vm_compute. reflexivity.
Defined.

Lemma scheduled_generate_frame_witness :
  Basal.subType MoreSamples.scheduled_example = VStr "scheduled"
  /\ exists out w',
       Sample.basal_generate MoreSamples.scheduled_example Sample.start
       = (Returned out, w')
       /\ has "previous" out = false
       /\ not_nullish (prop out "expectedDuration") = false.
Proof.
  split; [reflexivity | ].
  destruct (scheduled_generate_frame
              Sample.ToString_other Sample.StringToNumber Sample.moment
              Sample.utcOffset Sample.toISOString
              (Common.generate Sample.envelope)
              (VFun "common.duration" Common.duration)
              (VFun "common.basalRateValue" Sample.basalRateValue)
              Sample.basalRateSummary Sample.SCHEDULE_NAMES
              MoreSamples.scheduled_example Sample.start eq_refl)
    as (out & Hg & Hp & He & _).
  exists out. eexists. repeat split; eassumption.
Defined.

Lemma generate_within_one_hour_witness :
  (forall x, Sample.utcOffset x = -420)
  /\ Sample.moment (Basal.timestamp Sample.temp_example) = Some 1462349886425
  /\ Sample.moment (VStr "2016-05-04T08:59:59.999Z") = Some 1462352399999
  /\ (1462349886425 + -420 * 60000) / 3600000
     = (1462352399999 + -420 * 60000) / 3600000
  /\ Sample.basal_generate Sample.temp_example Sample.start
     = Sample.basal_generate
         {| Basal.subType := VStr "temp";
            Basal.timestamp := VStr "2016-05-04T08:59:59.999Z";
            Basal.format := VUndefined |} Sample.start.
Proof.
  repeat (split; [reflexivity | ]).
  exact (generate_within_one_hour
           Sample.ToString_other Sample.StringToNumber Sample.moment
           Sample.utcOffset Sample.toISOString
           (Common.generate Sample.envelope)
           (VFun "common.duration" Common.duration)
           (VFun "common.basalRateValue" Sample.basalRateValue)
           Sample.basalRateSummary Sample.SCHEDULE_NAMES
           Sample.temp_example (VStr "2016-05-04T08:59:59.999Z") Sample.start
           (-420) 1462349886425 1462352399999
           (fun _ => eq_refl) eq_refl eq_refl eq_refl).
Defined.

Lemma percent_reaches_every_twentieth_witness :
  0 <= 20 <= 20
  /\ exists w, fst (Basal.percentInstance w) = VNum (Checks.twentieth 20).
Proof.
  split; [lia | ]. apply (percent_reaches_every_twentieth 20). lia.
Defined.

Lemma bloodKetone_value_outcomes_witness :
  0 <= 50 <= 50 /\ 0 <= 0 <= 50
  /\ (exists w, fst (BloodKetone.value_instance w) = VNum (Number.decimal 50 1))
  /\ (Number.eqb (Number.decimal 50 1) (Number.decimal 0 1) = true -> 50 = 0).
Proof.
  split; [lia | ]. split; [lia | ].
  apply (bloodKetone_value_outcomes 50 0); lia.
Defined.

Lemma compose_deterministic_idempotent_witness :
  forallb (fun f => wf (VObj f)) Sample.temp_fragments = true
  /\ forallb (fun f => wf (VObj f)) MoreSamples.temp_fragments_again = true
  /\ Lodash.isEqual (VArr (map VObj Sample.temp_fragments))
       (VArr (map VObj MoreSamples.temp_fragments_again)) = true
  /\ get "rate" (Basal.compose (map VObj Sample.temp_fragments))
     = Fragments.lookup_last "rate" Sample.temp_fragments
  /\ Lodash.isEqual
       (VObj (Basal.compose (map VObj Sample.temp_fragments)))
       (VObj (Basal.compose (map VObj MoreSamples.temp_fragments_again))) = true
  /\ Lodash.isEqual
       (VObj (Basal.compose
                (map VObj (Sample.temp_fragments ++ Sample.temp_fragments)%list)))
       (VObj (Basal.compose (map VObj Sample.temp_fragments))) = true.
Proof.
  split; [reflexivity | ]. split; [reflexivity | ]. split; [reflexivity | ].
  destruct (compose_deterministic_idempotent
              Sample.temp_fragments MoreSamples.temp_fragments_again
              eq_refl eq_refl eq_refl)
    as (Hget & Hcopy & _ & Happ & _).
  split; [apply Hget | ]. split; [exact Hcopy | exact Happ].
Defined.

End MoreWitnesses.
